(** * Frog Species Registry: a shallow embedding of [frog_registry.py]

    The program is a Tk form over an SQLite table whose [species_name]
    column holds Fernet tokens.  The embedding follows the class
    [FrogSpeciesRegistryApp] method by method ([load_or_generate_key],
    [create_table], [save_record], [view_registry], [__init__]) and threads
    the state explicitly: the key file lives in a finite map from paths to
    contents, the table [frogs] is the list of its rows in rowid order
    together with the AUTOINCREMENT counter, and the widgets the methods
    read and write are fields of the application record.

    The libraries the program calls are modelled as far as the program
    depends on them: Python's [str.strip], [str.encode] and [bytes.decode];
    [base64.urlsafe_b64encode] and [base64.urlsafe_b64decode]; the class
    [cryptography.fernet.Fernet] (constructor, [generate_key], [encrypt],
    [decrypt], with the token layout of the Fernet specification); and the
    rowid assignment of an [INTEGER PRIMARY KEY AUTOINCREMENT] column.  Only
    AES-128-CBC and HMAC-SHA256 stay abstract, as a record of functions with
    the three laws the development uses. *)

From Stdlib Require Import ZArith Lia ZifyBool List Sorted Bool String Ascii.
From Stdlib Require Import Strings.Byte.
From stdpp Require Import base option list gmap strings.

Local Open Scope Z_scope.

(** ** Exceptions and fallible computations *)

(** The exceptions the modelled code can raise. *)
Inductive exn : Type :=
| UnicodeEncodeError
| UnicodeDecodeError
| OverflowError
| binascii_Error
| ValueError (msg : string)
| InvalidToken
| OperationalError (msg : string).

(** A computation either returns a value or raises. *)
Inductive result (A : Type) : Type :=
| Ok (a : A)
| Raise (e : exn).
Arguments Ok {A} a.
Arguments Raise {A} e.

Definition bind {A B : Type} (m : result A) (k : A -> result B) : result B :=
  match m with
  | Ok a => k a
  | Raise e => Raise e
  end.

Notation "x <~ m ;; k" := (bind m (fun x => k))
  (at level 20, m at level 99, k at level 200, only parsing).
Notation "' p <~ m ;; k" := (bind m (fun p => k))
  (at level 20, p pattern, m at level 99, k at level 200, only parsing).

Definition succeeds {A : Type} (m : result A) : bool :=
  match m with Ok _ => true | Raise _ => false end.

(** ** Bytes *)

Abbreviation bytes := (list byte).

Definition Z_of_byte (b : byte) : Z := Z.of_N (Byte.to_N b).

(** The byte with value [z mod 256]. *)
Definition byte_of_Z (z : Z) : byte :=
  match Byte.of_N (Z.to_N (z mod 256)) with
  | Some b => b
  | None => x00
  end.

#[global] Instance byte_eq_dec : EqDecision byte := Byte.byte_eq_dec.

(** ** Python strings *)

Module Py.

(** A [str] is a sequence of code points.  Python admits every value of
    [0 .. 0x10FFFF], lone surrogates included. *)
Definition str : Type := list Z.

(** A literal with characters below 256. *)
Definition lit (s : string) : str :=
  List.map (fun c => Z.of_N (N_of_ascii c)) (list_ascii_of_string s).

(** [bool(s)] of a string: false exactly for the empty one. *)
Definition truthy (s : str) : bool :=
  match s with [] => false | _ :: _ => true end.

(** [str.isspace] of one character, as CPython's [Py_UNICODE_ISSPACE]
    decides it. *)
Definition isspace (c : Z) : bool :=
  ((0x09 <=? c) && (c <=? 0x0D)) || ((0x1C <=? c) && (c <=? 0x20))
  || (c =? 0x85) || (c =? 0xA0) || (c =? 0x1680)
  || ((0x2000 <=? c) && (c <=? 0x200A))
  || (c =? 0x2028) || (c =? 0x2029) || (c =? 0x202F)
  || (c =? 0x205F) || (c =? 0x3000).

Fixpoint lstrip (s : str) : str :=
  match s with
  | [] => []
  | c :: s' => if isspace c then lstrip s' else s
  end.

Definition rstrip (s : str) : str := rev (lstrip (rev s)).

(** [s.strip()] removes leading and trailing whitespace. *)
Definition strip (s : str) : str := rstrip (lstrip s).

Definition is_surrogate (c : Z) : bool := (0xD800 <=? c) && (c <=? 0xDFFF).

(** UTF-8 encoding of one code point; a surrogate (or a value no [str]
    can hold) is refused. *)
Definition utf8_encode_char (c : Z) : result bytes :=
  if (c <? 0) || is_surrogate c || (0x10FFFF <? c) then Raise UnicodeEncodeError
  else if c <? 0x80 then Ok [byte_of_Z c]
  else if c <? 0x800 then
    Ok [byte_of_Z (0xC0 + c / 64); byte_of_Z (0x80 + c mod 64)]
  else if c <? 0x10000 then
    Ok [byte_of_Z (0xE0 + c / 4096); byte_of_Z (0x80 + (c / 64) mod 64);
        byte_of_Z (0x80 + c mod 64)]
  else
    Ok [byte_of_Z (0xF0 + c / 262144); byte_of_Z (0x80 + (c / 4096) mod 64);
        byte_of_Z (0x80 + (c / 64) mod 64); byte_of_Z (0x80 + c mod 64)].

(** [s.encode()], the codec being UTF-8 with strict errors. *)
Fixpoint encode (s : str) : result bytes :=
  match s with
  | [] => Ok []
  | c :: s' =>
      b <~ utf8_encode_char c ;;
      bs <~ encode s' ;;
      Ok (b ++ bs)
  end.

Definition is_cont (b : Z) : bool := (0x80 <=? b) && (b <=? 0xBF).

(** [b.decode()]: strict UTF-8, refusing truncated and overlong
    sequences, surrogates and values above [0x10FFFF]. *)
Fixpoint decode (b : bytes) : result str :=
  match b with
  | [] => Ok []
  | b0 :: r0 =>
      let z0 := Z_of_byte b0 in
      if z0 <? 0x80 then
        s <~ decode r0 ;; Ok (z0 :: s)
      else if z0 <? 0xC0 then Raise UnicodeDecodeError
      else
        match r0 with
        | [] => Raise UnicodeDecodeError
        | b1 :: r1 =>
            let z1 := Z_of_byte b1 in
            if negb (is_cont z1) then Raise UnicodeDecodeError
            else if z0 <? 0xE0 then
              let c := (z0 - 0xC0) * 64 + (z1 - 0x80) in
              if c <? 0x80 then Raise UnicodeDecodeError
              else s <~ decode r1 ;; Ok (c :: s)
            else
              match r1 with
              | [] => Raise UnicodeDecodeError
              | b2 :: r2 =>
                  let z2 := Z_of_byte b2 in
                  if negb (is_cont z2) then Raise UnicodeDecodeError
                  else if z0 <? 0xF0 then
                    let c := (z0 - 0xE0) * 4096 + (z1 - 0x80) * 64 + (z2 - 0x80) in
                    if (c <? 0x800) || is_surrogate c then Raise UnicodeDecodeError
                    else s <~ decode r2 ;; Ok (c :: s)
                  else
                    match r2 with
                    | [] => Raise UnicodeDecodeError
                    | b3 :: r3 =>
                        let z3 := Z_of_byte b3 in
                        if negb (is_cont z3) then Raise UnicodeDecodeError
                        else
                          let c := (z0 - 0xF0) * 262144 + (z1 - 0x80) * 4096
                                   + (z2 - 0x80) * 64 + (z3 - 0x80) in
                          if (c <? 0x10000) || (0x10FFFF <? c)
                          then Raise UnicodeDecodeError
                          else s <~ decode r3 ;; Ok (c :: s)
                    end
              end
        end
  end.

End Py.

(** ** Base64, as [binascii] and [base64] implement it *)

Module Base64.

Definition pad_char : Z := 61.   (* '=' *)

(** [table_b2a_base64]: the character of a 6-bit value in the standard
    alphabet. *)
Definition table_b2a (n : Z) : Z :=
  if n <? 26 then 65 + n
  else if n <? 52 then 97 + (n - 26)
  else if n <? 62 then 48 + (n - 52)
  else if n =? 62 then 43
  else 47.

(** [table_a2b_base64]: the 6-bit value of a character of the standard
    alphabet, [None] for any other byte. *)
Definition table_a2b (c : Z) : option Z :=
  if (65 <=? c) && (c <=? 90) then Some (c - 65)
  else if (97 <=? c) && (c <=? 122) then Some (c - 97 + 26)
  else if (48 <=? c) && (c <=? 57) then Some (c - 48 + 52)
  else if c =? 43 then Some 62
  else if c =? 47 then Some 63
  else None.

Definition chr (n : Z) : byte := byte_of_Z (table_b2a n).

(** [binascii.b2a_base64(s, newline=False)]: three bytes give four
    characters, the last group is padded with ['=']. *)
Fixpoint b2a_base64 (s : bytes) : bytes :=
  match s with
  | [] => []
  | [a] =>
      let x := Z_of_byte a in
      [chr (x / 4); chr (x mod 4 * 16); byte_of_Z pad_char; byte_of_Z pad_char]
  | [a; b] =>
      let x := Z_of_byte a in
      let y := Z_of_byte b in
      [chr (x / 4); chr (x mod 4 * 16 + y / 16); chr (y mod 16 * 4);
       byte_of_Z pad_char]
  | a :: b :: c :: s' =>
      let x := Z_of_byte a in
      let y := Z_of_byte b in
      let z := Z_of_byte c in
      chr (x / 4) :: chr (x mod 4 * 16 + y / 16)
        :: chr (y mod 16 * 4 + z / 64) :: chr (z mod 64) :: b2a_base64 s'
  end.

(** [binascii.a2b_base64(s)] outside strict mode: the loop over the
    input with its state [quad_pos], [leftchar] and [pads].  Bytes outside
    the alphabet are skipped; a pad that completes a quad ends the
    decoding; data left in an unfinished quad is an error. *)
Fixpoint a2b_loop (s : bytes) (quad_pos leftchar pads : Z) : result bytes :=
  match s with
  | [] => if quad_pos =? 0 then Ok [] else Raise binascii_Error
  | c :: s' =>
      if Z_of_byte c =? pad_char then
        if 2 <=? quad_pos then
          if 4 <=? quad_pos + (pads + 1) then Ok []
          else a2b_loop s' quad_pos leftchar (pads + 1)
        else a2b_loop s' quad_pos leftchar pads
      else
        match table_a2b (Z_of_byte c) with
        | None => a2b_loop s' quad_pos leftchar pads
        | Some v =>
            if quad_pos =? 0 then a2b_loop s' 1 v 0
            else if quad_pos =? 1 then
              out <~ a2b_loop s' 2 (v mod 16) 0 ;;
              Ok (byte_of_Z (leftchar * 4 + v / 16) :: out)
            else if quad_pos =? 2 then
              out <~ a2b_loop s' 3 (v mod 4) 0 ;;
              Ok (byte_of_Z (leftchar * 16 + v / 4) :: out)
            else
              out <~ a2b_loop s' 0 0 0 ;;
              Ok (byte_of_Z (leftchar * 64 + v) :: out)
        end
  end.

Definition a2b_base64 (s : bytes) : result bytes := a2b_loop s 0 0 0.

(** [bytes.translate] with the two tables of [base64]: ['+'] and ['/']
    exchanged with ['-'] and ['_']. *)
Definition urlsafe_encode_translation (c : byte) : byte :=
  if Z_of_byte c =? 43 then byte_of_Z 45
  else if Z_of_byte c =? 47 then byte_of_Z 95
  else c.

Definition urlsafe_decode_translation (c : byte) : byte :=
  if Z_of_byte c =? 45 then byte_of_Z 43
  else if Z_of_byte c =? 95 then byte_of_Z 47
  else c.

Definition urlsafe_b64encode (s : bytes) : bytes :=
  List.map urlsafe_encode_translation (b2a_base64 s).

Definition urlsafe_b64decode (s : bytes) : result bytes :=
  a2b_base64 (List.map urlsafe_decode_translation s).

End Base64.

(** ** The environment of one call: the clock and the random source *)

Record Env : Type := {
  (** [int(time.time())] *)
  now : Z;
  (** the bytes [os.urandom] hands out, in order *)
  random : nat -> byte
}.

(** [os.urandom(n)] *)
Definition os_urandom (env : Env) (n : nat) : bytes :=
  List.map (random env) (seq 0 n).

(** ** [cryptography.fernet.Fernet] *)

(** AES-128 in CBC mode on whole blocks and HMAC-SHA256, with what the
    development needs of them: encryption keeps the length and is undone
    by decryption under the same key and IV, and a tag has 32 bytes. *)
Record Primitives : Type := {
  aes128_cbc_encrypt : bytes -> bytes -> bytes -> bytes;
  aes128_cbc_decrypt : bytes -> bytes -> bytes -> bytes;
  hmac_sha256 : bytes -> bytes -> bytes;
  aes128_cbc_length : forall key iv p,
    length (aes128_cbc_encrypt key iv p) = length p;
  aes128_cbc_inverse : forall key iv p,
    length key = 16%nat -> length iv = 16%nat ->
    (Z.of_nat (length p) mod 16 = 0) ->
    aes128_cbc_decrypt key iv (aes128_cbc_encrypt key iv p) = p;
  hmac_sha256_length : forall key d, length (hmac_sha256 key d) = 32%nat
}.

Module Fernet.

(** A [Fernet] object holds the two halves of the decoded key. *)
Record t : Type := {
  signing_key : bytes;
  encryption_key : bytes
}.

Definition key_error : exn :=
  ValueError "Fernet key must be 32 url-safe base64-encoded bytes.".

(** [Fernet(key)]: the key must decode to exactly 32 bytes. *)
Definition init (key : bytes) : result t :=
  match Base64.urlsafe_b64decode key with
  | Raise _ => Raise key_error
  | Ok k =>
      if (length k =? 32)%nat
      then Ok {| signing_key := take 16 k; encryption_key := drop 16 k |}
      else Raise key_error
  end.

(** [Fernet.generate_key()] *)
Definition generate_key (env : Env) : bytes :=
  Base64.urlsafe_b64encode (os_urandom env 32).

(** PKCS7 padding to the AES block size. *)
Definition pkcs7_pad (data : bytes) : bytes :=
  let n := (16 - length data mod 16)%nat in
  data ++ repeat (byte_of_Z (Z.of_nat n)) n.

Definition pkcs7_unpad (p : bytes) : result bytes :=
  match last p with
  | None => Raise InvalidToken
  | Some b =>
      let n := Z.to_nat (Z_of_byte b) in
      if (n =? 0)%nat || (16 <? n)%nat || (length p <? n)%nat
      then Raise InvalidToken
      else if forallb (Byte.eqb b) (drop (length p - n) p)
      then Ok (take (length p - n) p)
      else Raise InvalidToken
  end.

(** [n.to_bytes(length, byteorder="big")] *)
Fixpoint to_bytes_loop (len : nat) (n : Z) : bytes :=
  match len with
  | O => []
  | S len' => to_bytes_loop len' (n / 256) ++ [byte_of_Z n]
  end.

Definition to_bytes (len : nat) (n : Z) : result bytes :=
  if (n <? 0) || (256 ^ Z.of_nat len <=? n) then Raise OverflowError
  else Ok (to_bytes_loop len n).

Section WithPrimitives.
Variable P : Primitives.

(** [_encrypt_from_parts] *)
Definition encrypt_from_parts (f : t) (data : bytes) (current_time : Z)
    (iv : bytes) : result bytes :=
  let padded_data := pkcs7_pad data in
  let ciphertext := aes128_cbc_encrypt P (encryption_key f) iv padded_data in
  ts <~ to_bytes 8 current_time ;;
  let basic_parts := (byte_of_Z 0x80 :: ts) ++ iv ++ ciphertext in
  let hmac := hmac_sha256 P (signing_key f) basic_parts in
  Ok (Base64.urlsafe_b64encode (basic_parts ++ hmac)).

(** [encrypt(data)], through [encrypt_at_time] *)
Definition encrypt (f : t) (env : Env) (data : bytes) : result bytes :=
  let iv := os_urandom env 16 in
  encrypt_from_parts f data (now env) iv.

(** [_get_unverified_token_data], the timestamp being unused without
    a ttl *)
Definition get_unverified_token_data (token : bytes) : result bytes :=
  match Base64.urlsafe_b64decode token with
  | Raise _ => Raise InvalidToken
  | Ok data =>
      match data with
      | [] => Raise InvalidToken
      | b :: _ =>
          if negb (Z_of_byte b =? 0x80) then Raise InvalidToken
          else if (length data <? 9)%nat then Raise InvalidToken
          else Ok data
      end
  end.

(** [_verify_signature]: the tag over [data[:-32]] against [data[-32:]] *)
Definition verify_signature (f : t) (data : bytes) : result unit :=
  let n := length data in
  if bool_decide (hmac_sha256 P (signing_key f) (take (n - 32) data)
                  = drop (n - 32) data)
  then Ok tt
  else Raise InvalidToken.

(** [_decrypt_data], without a ttl *)
Definition decrypt_data (f : t) (data : bytes) : result bytes :=
  _ <~ verify_signature f data ;;
  let n := length data in
  let iv := take 16 (drop 9 data) in
  let ciphertext := drop 25 (take (n - 32) data) in
  if negb (length iv =? 16)%nat then Raise (ValueError "Invalid IV size for CBC.")
  else if negb (length ciphertext mod 16 =? 0)%nat then Raise InvalidToken
  else
    let plaintext_padded :=
      aes128_cbc_decrypt P (encryption_key f) iv ciphertext in
    pkcs7_unpad plaintext_padded.

(** [decrypt(token)] *)
Definition decrypt (f : t) (token : bytes) : result bytes :=
  data <~ get_unverified_token_data token ;;
  decrypt_data f data.

End WithPrimitives.

End Fernet.

(** ** The table [frogs] *)

Module Sqlite.

(** A row as [SELECT *] returns it: [row[0]] to [row[4]]. *)
Record row : Type := {
  id : Z;
  species_name : Py.str;
  genus : Py.str;
  habitat : Py.str;
  conservation_status : Py.str
}.

(** The table: its rows in rowid order (the order of a scan), and the
    largest rowid ever handed out, which AUTOINCREMENT keeps in
    [sqlite_sequence]. *)
Record table : Type := {
  rows : list row;
  seq : Z
}.

Definition empty_table : table := {| rows := []; seq := 0 |}.

(** [CREATE TABLE IF NOT EXISTS frogs (...)] on a database file that
    holds the table or not. *)
Definition create_table_if_not_exists (db : option table) : table :=
  match db with
  | Some t => t
  | None => empty_table
  end.

(** The largest value of a 64-bit rowid. *)
Definition max_rowid : Z := 9223372036854775807.

Fixpoint largest_rowid (rs : list row) : Z :=
  match rs with
  | [] => 0
  | r :: rs' => Z.max (id r) (largest_rowid rs')
  end.

(** A row enters the table at the place of its rowid. *)
Fixpoint insert_by_rowid (r : row) (rs : list row) : list row :=
  match rs with
  | [] => [r]
  | x :: rs' => if id r <? id x then r :: rs else x :: insert_by_rowid r rs'
  end.

(** Binding a [str] parameter converts it to UTF-8, which fails on a lone
    surrogate. *)
Definition bind_text (s : Py.str) : result unit :=
  _ <~ Py.encode s ;; Ok tt.

(** The largest rowid the table has used: of the rows it holds and of
    its counter. *)
Definition top_rowid (t : table) : Z := Z.max (largest_rowid (rows t)) (seq t).

(** [INSERT INTO frogs (species_name, genus, habitat,
    conservation_status) VALUES (?, ?, ?, ?)] followed by [commit]: the
    new rowid is one more than the largest used; the statement fails
    when that was the largest rowid there is. *)
Definition insert (t : table) (species genus habitat status : Py.str)
    : result table :=
  _ <~ bind_text species ;;
  _ <~ bind_text genus ;;
  _ <~ bind_text habitat ;;
  _ <~ bind_text status ;;
  if max_rowid <=? top_rowid t
  then Raise (OperationalError "database or disk is full")
  else
    let r := {| id := top_rowid t + 1; species_name := species; genus := genus;
                habitat := habitat; conservation_status := status |} in
    Ok {| rows := insert_by_rowid r (rows t); seq := top_rowid t + 1 |}.

(** [SELECT * FROM frogs] and [fetchall], on a table whose text values
    were decoded; the decoding of what the file holds, which can fail, is
    [Stored.fetchall] below. *)
Definition select_all (t : table) : list row := rows t.

End Sqlite.

(** ** The table as the database file holds it

    SQLite keeps a TEXT value as the bytes it was given and checks nothing;
    [sqlite3] decodes them as UTF-8 when a row is fetched and raises
    [OperationalError] on bytes that are not UTF-8.  A table of [Sqlite.row]
    is a file whose text decoded. *)

Module Stored.

Record row : Type := {
  id : Z;
  species_name : bytes;
  genus : bytes;
  habitat : bytes;
  conservation_status : bytes
}.

Definition decode_error (column : string) : exn :=
  OperationalError ("Could not decode to UTF-8 column '" ++ column ++ "'").

(** The conversion of one TEXT value of a fetched row. *)
Definition column_text (column : string) (b : bytes) : result Py.str :=
  match Py.decode b with
  | Ok s => Ok s
  | Raise _ => Raise (decode_error column)
  end.

(** One row fetched, its columns converted in order. *)
Definition fetch_row (r : row) : result Sqlite.row :=
  species <~ column_text "species_name" (species_name r) ;;
  genus <~ column_text "genus" (genus r) ;;
  habitat <~ column_text "habitat" (habitat r) ;;
  status <~ column_text "conservation_status" (conservation_status r) ;;
  Ok {| Sqlite.id := id r; Sqlite.species_name := species;
        Sqlite.genus := genus; Sqlite.habitat := habitat;
        Sqlite.conservation_status := status |}.

(** [cursor.fetchall()] after [SELECT * FROM frogs]: every row of the
    table, or the exception of the first row that does not convert. *)
Fixpoint fetchall (rs : list row) : result (list Sqlite.row) :=
  match rs with
  | [] => Ok []
  | r :: rs' =>
      x <~ fetch_row r ;;
      xs <~ fetchall rs' ;;
      Ok (x :: xs)
  end.

(** The bytes a row of text is stored as: the UTF-8 of its values, as the
    binding of the parameters writes them. *)
Definition of_row (r : Sqlite.row) : result row :=
  species <~ Py.encode (Sqlite.species_name r) ;;
  genus <~ Py.encode (Sqlite.genus r) ;;
  habitat <~ Py.encode (Sqlite.habitat r) ;;
  status <~ Py.encode (Sqlite.conservation_status r) ;;
  Ok {| id := Sqlite.id r; species_name := species; genus := genus;
        habitat := habitat; conservation_status := status |}.

Fixpoint of_rows (rs : list Sqlite.row) : result (list row) :=
  match rs with
  | [] => Ok []
  | r :: rs' =>
      x <~ of_row r ;;
      xs <~ of_rows rs' ;;
      Ok (x :: xs)
  end.

(** A row with the bytes of its species name replaced, as a damaged file
    or another program leaves it. *)
Definition with_species_name (b : bytes) (r : row) : row :=
  {| id := id r; species_name := b; genus := genus r; habitat := habitat r;
     conservation_status := conservation_status r |}.

End Stored.

(** ** The application *)

(** The text of a message box: a literal, or the f-string of line 83 with
    the exception it formats. *)
Inductive message : Type :=
| Text (s : string)
| Encryption_failed (e : exn).

Inductive dialog : Type :=
| showerror (title : string) (m : message)
| showinfo (title : string) (m : message).

(** The three message boxes of [save_record] (lines 76, 83 and 92). *)
Definition all_fields_required : dialog :=
  showerror "Error" (Text "All fields are required!").
Definition encryption_failed (e : exn) : dialog :=
  showerror "Error" (Encryption_failed e).
Definition saved_successfully : dialog :=
  showinfo "Success" (Text "Frog species record saved successfully!").

(** The marker of line 126. *)
Definition decryption_error : Py.str := Py.lit "Decryption Error".

(** The values of the combobox (lines 35-37). *)
Definition status_values : list Py.str :=
  List.map Py.lit
    ["Least Concern"; "Near Threatened"; "Vulnerable"; "Endangered";
     "Critically Endangered"; "Extinct"]%string.

(** The object [self]: the attributes the methods read and write. *)
Record App : Type := {
  key_file : string;
  cipher : Fernet.t;
  conn : Sqlite.table;
  species_entry : Py.str;
  genus_entry : Py.str;
  habitat_entry : Py.str;
  status_combobox : Py.str
}.

(** The files of the working directory: the key files by name, and the
    database [frog_registry.db] as the table it holds, if any. *)
Record World : Type := {
  files : gmap string bytes;
  database : option Sqlite.table
}.

(** A line of the tree view: the [values] tuple of line 127. *)
Definition item : Type := Z * Py.str * Py.str * Py.str * Py.str.

(** [load_or_generate_key] (lines 44-53), on the file system [fs]: the
    outcome of [Fernet(key)] and the file system it leaves. *)
Definition load_or_generate_key (path : string) (env : Env)
    (fs : gmap string bytes) : result Fernet.t * gmap string bytes :=
  match fs !! path with
  | Some key => (Fernet.init key, fs)
  | None =>
      let key := Fernet.generate_key env in
      (Fernet.init key, <[path := key]> fs)
  end.

(** [create_table] (lines 55-66) *)
Definition create_table (db : option Sqlite.table) : Sqlite.table :=
  Sqlite.create_table_if_not_exists db.

(** The contents of the four widgets: species name, genus, habitat and
    conservation status. *)
Definition form : Type := Py.str * Py.str * Py.str * Py.str.

(** The form filled in, by the user or by [Entry.insert] and
    [Combobox.set]. *)
Definition set_form (self : App) (f : form) : App :=
  let '(species, genus, habitat, status) := f in
  {| key_file := key_file self; cipher := cipher self; conn := conn self;
     species_entry := species; genus_entry := genus; habitat_entry := habitat;
     status_combobox := status |}.

(** The first value of a line of the tree view. *)
Definition item_id (it : item) : Z :=
  let '(i, _, _, _, _) := it in i.


(** The four fields pass the test of line 75: none is empty, the first
    three once stripped. *)
Definition complete (self : App) : bool :=
  Py.truthy (Py.strip (species_entry self))
  && Py.truthy (Py.strip (genus_entry self))
  && Py.truthy (Py.strip (habitat_entry self))
  && Py.truthy (status_combobox self).

Section Methods.
Variable P : Primitives.

(** Line 81: [self.cipher.encrypt(species_name.encode()).decode()] *)
Definition encrypt_species (c : Fernet.t) (env : Env) (species_name : Py.str)
    : result Py.str :=
  b <~ Py.encode species_name ;;
  token <~ Fernet.encrypt P c env b ;;
  Py.decode token.

(** Line 124: [self.cipher.decrypt(row[1].encode()).decode()] *)
Definition decrypt_species (c : Fernet.t) (stored : Py.str) : result Py.str :=
  b <~ Py.encode stored ;;
  plain <~ Fernet.decrypt P c b ;;
  Py.decode plain.

(** [save_record] (lines 68-96): the object after the call, and the
    message box shown, or the exception that leaves the method. *)
Definition save_record (env : Env) (self : App) : App * result dialog :=
  let species_name := Py.strip (species_entry self) in
  let genus := Py.strip (genus_entry self) in
  let habitat := Py.strip (habitat_entry self) in
  let conservation_status := status_combobox self in
  if negb (Py.truthy species_name) || negb (Py.truthy genus)
     || negb (Py.truthy habitat) || negb (Py.truthy conservation_status)
  then (self, Ok all_fields_required)
  else
    match encrypt_species (cipher self) env species_name with
    | Raise e => (self, Ok (encryption_failed e))
    | Ok encrypted_species =>
        match Sqlite.insert (conn self) encrypted_species genus habitat
                conservation_status with
        | Raise e => (self, Raise e)
        | Ok conn' =>
            ({| key_file := key_file self;
                cipher := cipher self;
                conn := conn';
                species_entry := [];
                genus_entry := [];
                habitat_entry := [];
                status_combobox := Py.lit "Least Concern" |},
             Ok saved_successfully)
        end
    end.

(** The body of the loop of [view_registry] (lines 122-127). *)
Definition view_row (c : Fernet.t) (row : Sqlite.row) : item :=
  let decrypted_species :=
    match decrypt_species c (Sqlite.species_name row) with
    | Ok s => s
    | Raise _ => decryption_error
    end in
  (Sqlite.id row, decrypted_species, Sqlite.genus row, Sqlite.habitat row,
   Sqlite.conservation_status row).

(** [view_registry] (lines 98-127): the lines of the tree view of the
    window it opens. *)
Definition view_registry (self : App) : list item :=
  List.map (view_row (cipher self)) (Sqlite.select_all (conn self)).

(** Lines 119-127 on the table as the file holds it: [fetchall] (line 121)
    stands before the loop and outside its [try], so its exception leaves
    the method and no line is shown. *)
Definition view_registry_from_file (c : Fernet.t) (stored : list Stored.row)
    : result (list item) :=
  rows <~ Stored.fetchall stored ;;
  Ok (List.map (view_row c) rows).

(** [__init__] (lines 8-42): the object, or the exception of
    [load_or_generate_key], and the files it leaves.  The directory is
    taken to be readable and writable, and [frog_registry.db] to be absent
    or an SQLite database: the failures of [open] and [sqlite3.connect]
    are not modelled. *)
Definition __init__ (env : Env) (w : World) : result App * World :=
  let '(c, fs) := load_or_generate_key "key.key" env (files w) in
  match c with
  | Raise e => (Raise e, {| files := fs; database := database w |})
  | Ok c =>
      let t := create_table (database w) in
      (Ok {| key_file := "key.key";
             cipher := c;
             conn := t;
             species_entry := [];
             genus_entry := [];
             habitat_entry := [];
             status_combobox := Py.lit "Least Concern" |},
       {| files := fs; database := Some t |})
  end.

(** What the user can do with the form: replace the text of an entry,
    pick one of the values of the read-only combobox, press a button. *)
Inductive action : Type :=
| Edit_species (s : Py.str)
| Edit_genus (s : Py.str)
| Edit_habitat (s : Py.str)
| Select_status (i : nat)
| Press_save (env : Env)
| Press_view.

Definition step (self : App) (a : action) : App :=
  match a with
  | Edit_species s =>
      {| key_file := key_file self; cipher := cipher self; conn := conn self;
         species_entry := s; genus_entry := genus_entry self;
         habitat_entry := habitat_entry self;
         status_combobox := status_combobox self |}
  | Edit_genus s =>
      {| key_file := key_file self; cipher := cipher self; conn := conn self;
         species_entry := species_entry self; genus_entry := s;
         habitat_entry := habitat_entry self;
         status_combobox := status_combobox self |}
  | Edit_habitat s =>
      {| key_file := key_file self; cipher := cipher self; conn := conn self;
         species_entry := species_entry self; genus_entry := genus_entry self;
         habitat_entry := s;
         status_combobox := status_combobox self |}
  | Select_status i =>
      match status_values !! i with
      | Some v =>
          {| key_file := key_file self; cipher := cipher self;
             conn := conn self;
             species_entry := species_entry self;
             genus_entry := genus_entry self;
             habitat_entry := habitat_entry self;
             status_combobox := v |}
      | None => self
      end
  | Press_save env => fst (save_record env self)
  | Press_view => self
  end.

Definition run (self : App) (l : list action) : App := fold_left step l self.

(** A sequence of [save_record] calls, the form filled in before each. *)
Definition save_all (self : App) (l : list (Env * form)) : App :=
  fold_left (fun s x => fst (save_record (fst x) (set_form s (snd x)))) l self.

(** A call reported success: it showed the box of line 92, the only
    [showinfo] of the program. *)
Definition reported_success (r : result dialog) : bool :=
  match r with
  | Ok (showinfo _ _) => true
  | _ => false
  end.

(** The number of calls of a sequence that report success. *)
Fixpoint successes (self : App) (l : list (Env * form)) : nat :=
  match l with
  | [] => 0
  | x :: l' =>
      let r := save_record (fst x) (set_form self (snd x)) in
      ((if reported_success (snd r) then 1 else 0) + successes (fst r) l')%nat
  end.

End Methods.

(** * Properties *)

(** ** Bytes and their values *)

Arguments byte_of_Z : simpl never.
Arguments Z_of_byte : simpl never.

Lemma Z_of_byte_range (b : byte) : 0 <= Z_of_byte b < 256.
Proof.
  unfold Z_of_byte. pose proof (Byte.to_N_bounded b). lia.
Qed.

Lemma byte_of_Z_of_byte (b : byte) : byte_of_Z (Z_of_byte b) = b.
Proof.
  unfold byte_of_Z, Z_of_byte.
  pose proof (Byte.to_N_bounded b) as Hb.
  rewrite Z.mod_small by lia.
  rewrite N2Z.id, Byte.of_to_N. reflexivity.
Qed.

Lemma Z_of_byte_of_Z (z : Z) : 0 <= z < 256 -> Z_of_byte (byte_of_Z z) = z.
Proof.
  intros Hz. unfold byte_of_Z, Z_of_byte.
  rewrite Z.mod_small by lia.
  destruct (Byte.of_N (Z.to_N z)) as [b|] eqn:E.
  - apply Byte.to_of_N in E. rewrite E. lia.
  - apply Byte.of_N_None_iff in E. lia.
Qed.

(** Arithmetic goals with division and remainder by constants. *)
Ltac zdm := Z.div_mod_to_equations; lia.

(** Settle the test of the conditional at the head of the left-hand side. *)
Ltac head_if :=
  match goal with
  | |- (if ?t then _ else _) = _ =>
      first [ replace t with false by zdm | replace t with true by zdm ]
  end.

(** ** Monadic bookkeeping *)

Lemma bind_Ok_inv {A B : Type} (m : result A) (k : A -> result B) (b : B) :
  bind m k = Ok b -> exists a, m = Ok a /\ k a = Ok b.
Proof. destruct m as [a|e]; simpl; [eauto | discriminate]. Qed.

Ltac inv_bind H :=
  let a := fresh "x" in
  let Ha := fresh "Hx" in
  apply bind_Ok_inv in H; destruct H as (a & Ha & H).

(** ** Python strings: [strip], [encode], [decode] *)

Module PyFacts.
Import Py.

Lemma decode_cons (b0 : byte) (r0 : bytes) :
  decode (b0 :: r0) =
  let z0 := Z_of_byte b0 in
  if z0 <? 0x80 then bind (decode r0) (fun s => Ok (z0 :: s))
  else if z0 <? 0xC0 then Raise UnicodeDecodeError
  else
    match r0 with
    | [] => Raise UnicodeDecodeError
    | b1 :: r1 =>
        let z1 := Z_of_byte b1 in
        if negb (is_cont z1) then Raise UnicodeDecodeError
        else if z0 <? 0xE0 then
          let c := (z0 - 0xC0) * 64 + (z1 - 0x80) in
          if c <? 0x80 then Raise UnicodeDecodeError
          else bind (decode r1) (fun s => Ok (c :: s))
        else
          match r1 with
          | [] => Raise UnicodeDecodeError
          | b2 :: r2 =>
              let z2 := Z_of_byte b2 in
              if negb (is_cont z2) then Raise UnicodeDecodeError
              else if z0 <? 0xF0 then
                let c := (z0 - 0xE0) * 4096 + (z1 - 0x80) * 64 + (z2 - 0x80) in
                if (c <? 0x800) || is_surrogate c then Raise UnicodeDecodeError
                else bind (decode r2) (fun s => Ok (c :: s))
              else
                match r2 with
                | [] => Raise UnicodeDecodeError
                | b3 :: r3 =>
                    let z3 := Z_of_byte b3 in
                    if negb (is_cont z3) then Raise UnicodeDecodeError
                    else
                      let c := (z0 - 0xF0) * 262144 + (z1 - 0x80) * 4096
                               + (z2 - 0x80) * 64 + (z3 - 0x80) in
                      if (c <? 0x10000) || (0x10FFFF <? c)
                      then Raise UnicodeDecodeError
                      else bind (decode r3) (fun s => Ok (c :: s))
                end
          end
    end.
Proof. reflexivity. Qed.

(** One encoded character, read back in front of any remaining input. *)
Lemma decode_encode_char (c : Z) (bc rest : bytes) :
  utf8_encode_char c = Ok bc ->
  decode (bc ++ rest) = bind (decode rest) (fun s => Ok (c :: s)).
Proof.
  unfold utf8_encode_char.
  destruct ((c <? 0) || is_surrogate c || (0x10FFFF <? c)) eqn:Hbad;
    [discriminate|].
  unfold is_surrogate in Hbad.
  assert (Hc : 0 <= c <= 0x10FFFF /\ (c < 0xD800 \/ 0xDFFF < c)) by lia.
  clear Hbad.
  destruct (Z.ltb_spec c 0x80); [|destruct (Z.ltb_spec c 0x800);
    [|destruct (Z.ltb_spec c 0x10000)]];
    intros [= <-]; cbn [app]; rewrite decode_cons;
    cbv beta iota zeta; unfold is_cont, is_surrogate;
    rewrite !Z_of_byte_of_Z by zdm;
    repeat head_if;
    match goal with
    | |- bind _ (fun s => Ok (?e :: s)) = _ => replace e with c by zdm
    end; reflexivity.
Qed.

(** [s.encode().decode() == s] whenever [s] can be encoded. *)
Lemma decode_encode (s : str) (b : bytes) :
  encode s = Ok b -> decode b = Ok s.
Proof.
  revert b. induction s as [|c s IH]; intros b H.
  - injection H as <-. reflexivity.
  - cbn [encode] in H. inv_bind H. inv_bind H. injection H as <-.
    rewrite (decode_encode_char c x x0 Hx), (IH _ Hx0). reflexivity.
Qed.

End PyFacts.

(** A boolean property checked on every value below a bound. *)
Lemma forall_below (k : nat) (p : Z -> bool) :
  forallb p (List.map Z.of_nat (seq 0 k)) = true ->
  forall n, 0 <= n < Z.of_nat k -> p n = true.
Proof.
  intros H n Hn. rewrite forallb_forall in H. apply H.
  apply in_map_iff. exists (Z.to_nat n). split; [lia|].
  apply in_seq. lia.
Qed.

(** Lists taken three elements at a time. *)
Lemma list_ind3 {A : Type} (Q : list A -> Prop) :
  Q [] -> (forall a, Q [a]) -> (forall a b, Q [a; b]) ->
  (forall a b c l, Q l -> Q (a :: b :: c :: l)) ->
  forall l, Q l.
Proof.
  intros H0 H1 H2 H3 l.
  assert (H : forall n l, (length l < n)%nat -> Q l).
  { intros n. induction n as [|n IH]; intros l' Hl; [lia|].
    destruct l' as [|a [|b [|c l'']]]; auto.
    apply H3, IH. cbn [length] in Hl. lia. }
  apply (H (S (length l))). lia.
Qed.

Module PyAscii.
Import Py.

Definition ascii (b : bytes) : Prop := Forall (fun x => Z_of_byte x < 0x80) b.

(** ASCII bytes decode to their own values ... *)
Lemma decode_ascii (b : bytes) :
  ascii b -> decode b = Ok (List.map Z_of_byte b).
Proof.
  induction 1 as [|x b Hx _ IH]; [reflexivity|].
  rewrite PyFacts.decode_cons. cbv zeta.
  destruct (Z.ltb_spec (Z_of_byte x) 0x80); [|lia].
  rewrite IH. reflexivity.
Qed.

(** ... and these encode to the same bytes. *)
Lemma encode_ascii (b : bytes) :
  ascii b -> encode (List.map Z_of_byte b) = Ok b.
Proof.
  induction 1 as [|x b Hx _ IH]; [reflexivity|].
  pose proof (Z_of_byte_range x).
  assert (Hc : utf8_encode_char (Z_of_byte x) = Ok [x]).
  { unfold utf8_encode_char, is_surrogate. repeat head_if.
    now rewrite byte_of_Z_of_byte. }
  cbn [List.map encode]. rewrite IH, Hc. reflexivity.
Qed.

End PyAscii.

(** ** Base64 *)

Module Base64Facts.
Import Base64.

(** A character of the url-safe alphabet, translated back for decoding. *)
Definition back (n : Z) : byte :=
  urlsafe_decode_translation (urlsafe_encode_translation (chr n)).

Lemma back_value (n : Z) :
  0 <= n < 64 ->
  Z_of_byte (back n) <> pad_char /\ table_a2b (Z_of_byte (back n)) = Some n.
Proof.
  intros Hn.
  pose proof (forall_below 64
    (fun n => negb (Z_of_byte (back n) =? pad_char)
              && bool_decide (table_a2b (Z_of_byte (back n)) = Some n))) as H.
  specialize (H ltac:(vm_compute; reflexivity) n Hn).
  apply andb_true_iff in H as [H1 H2].
  apply negb_true_iff, Z.eqb_neq in H1.
  apply bool_decide_eq_true in H2. auto.
Qed.

Lemma url_char_ascii (n : Z) :
  0 <= n < 64 -> Z_of_byte (urlsafe_encode_translation (chr n)) < 0x80.
Proof.
  intros Hn.
  pose proof (forall_below 64
    (fun n => Z_of_byte (urlsafe_encode_translation (chr n)) <? 0x80)) as H.
  specialize (H ltac:(vm_compute; reflexivity) n Hn).
  now apply Z.ltb_lt in H.
Qed.

(** One step of the loop on a character of the alphabet. *)
Lemma a2b_loop_char (n : Z) (s : bytes) (quad_pos leftchar pads : Z) :
  0 <= n < 64 ->
  a2b_loop (back n :: s) quad_pos leftchar pads =
  if quad_pos =? 0 then a2b_loop s 1 n 0
  else if quad_pos =? 1 then
    bind (a2b_loop s 2 (n mod 16) 0)
         (fun out => Ok (byte_of_Z (leftchar * 4 + n / 16) :: out))
  else if quad_pos =? 2 then
    bind (a2b_loop s 3 (n mod 4) 0)
         (fun out => Ok (byte_of_Z (leftchar * 16 + n / 4) :: out))
  else
    bind (a2b_loop s 0 0 0)
         (fun out => Ok (byte_of_Z (leftchar * 64 + n) :: out)).
Proof.
  intros Hn. destruct (back_value n Hn) as [Hp Ht].
  cbn [a2b_loop]. rewrite Ht.
  destruct (Z.eqb_spec (Z_of_byte (back n)) pad_char); [contradiction|].
  reflexivity.
Qed.

Definition pad_back : byte :=
  urlsafe_decode_translation (urlsafe_encode_translation (byte_of_Z pad_char)).

(** One step of the loop on a pad. *)
Lemma a2b_loop_pad (s : bytes) (quad_pos leftchar pads : Z) :
  a2b_loop (pad_back :: s) quad_pos leftchar pads =
  if 2 <=? quad_pos then
    if 4 <=? quad_pos + (pads + 1) then Ok []
    else a2b_loop s quad_pos leftchar (pads + 1)
  else a2b_loop s quad_pos leftchar pads.
Proof. reflexivity. Qed.

(** A full group of three bytes is read back and leaves the loop in its
    initial state. *)
Lemma a2b_loop_group (a b c : byte) (s : bytes) (leftchar pads : Z) :
  let x := Z_of_byte a in
  let y := Z_of_byte b in
  let z := Z_of_byte c in
  a2b_loop (back (x / 4) :: back (x mod 4 * 16 + y / 16)
              :: back (y mod 16 * 4 + z / 64) :: back (z mod 64) :: s)
           0 leftchar pads
  = bind (a2b_loop s 0 0 0) (fun out => Ok (a :: b :: c :: out)).
Proof.
  intros x y z.
  pose proof (Z_of_byte_range a). pose proof (Z_of_byte_range b).
  pose proof (Z_of_byte_range c).
  rewrite !a2b_loop_char by (subst x y z; zdm).
  cbn [Z.eqb].
  destruct (a2b_loop s 0 0 0) as [out|e]; [|reflexivity].
  cbn [bind].
  replace (x / 4 * 4 + (x mod 4 * 16 + y / 16) / 16) with x by zdm.
  replace ((x mod 4 * 16 + y / 16) mod 16 * 16 + (y mod 16 * 4 + z / 64) / 4)
    with y by zdm.
  replace ((y mod 16 * 4 + z / 64) mod 4 * 64 + z mod 64) with z by zdm.
  subst x y z. rewrite !byte_of_Z_of_byte. reflexivity.
Qed.

(** Decoding undoes encoding. *)
Lemma urlsafe_b64decode_b64encode (s : bytes) :
  urlsafe_b64decode (urlsafe_b64encode s) = Ok s.
Proof.
  unfold urlsafe_b64decode, urlsafe_b64encode, a2b_base64.
  rewrite map_map.
  induction s as [|a|a b|a b c s IH] using list_ind3.
  - reflexivity.
  - cbn [b2a_base64 List.map].
    pose proof (Z_of_byte_range a).
    fold (back (Z_of_byte a / 4)). fold (back (Z_of_byte a mod 4 * 16)).
    fold pad_back.
    rewrite !a2b_loop_char by zdm. cbn [Z.eqb].
    rewrite !a2b_loop_pad. cbn -[byte_of_Z Z.div Z.modulo].
    replace (Z_of_byte a / 4 * 4 + Z_of_byte a mod 4 * 16 / 16)
      with (Z_of_byte a) by zdm.
    now rewrite byte_of_Z_of_byte.
  - cbn [b2a_base64 List.map].
    pose proof (Z_of_byte_range a). pose proof (Z_of_byte_range b).
    fold (back (Z_of_byte a / 4)).
    fold (back (Z_of_byte a mod 4 * 16 + Z_of_byte b / 16)).
    fold (back (Z_of_byte b mod 16 * 4)).
    fold pad_back.
    rewrite !a2b_loop_char by zdm. cbn [Z.eqb].
    rewrite !a2b_loop_pad. cbn -[byte_of_Z Z.div Z.modulo].
    replace (Z_of_byte a / 4 * 4 + (Z_of_byte a mod 4 * 16 + Z_of_byte b / 16) / 16)
      with (Z_of_byte a) by zdm.
    replace ((Z_of_byte a mod 4 * 16 + Z_of_byte b / 16) mod 16 * 16
             + Z_of_byte b mod 16 * 4 / 4)
      with (Z_of_byte b) by zdm.
    now rewrite !byte_of_Z_of_byte.
  - cbn [b2a_base64 List.map].
    fold (back (Z_of_byte a / 4)).
    fold (back (Z_of_byte a mod 4 * 16 + Z_of_byte b / 16)).
    fold (back (Z_of_byte b mod 16 * 4 + Z_of_byte c / 64)).
    fold (back (Z_of_byte c mod 64)).
    rewrite (a2b_loop_group a b c). rewrite IH. reflexivity.
Qed.

(** The encoder writes ASCII only. *)
Lemma urlsafe_b64encode_ascii (s : bytes) :
  PyAscii.ascii (urlsafe_b64encode s).
Proof.
  unfold urlsafe_b64encode, PyAscii.ascii.
  assert (Hpad : Z_of_byte (urlsafe_encode_translation (byte_of_Z pad_char)) < 0x80)
    by (vm_compute; reflexivity).
  induction s as [|a|a b|a b c s IH] using list_ind3; cbn [b2a_base64 List.map].
  - constructor.
  - pose proof (Z_of_byte_range a).
    repeat constructor; try exact Hpad; apply url_char_ascii; zdm.
  - pose proof (Z_of_byte_range a). pose proof (Z_of_byte_range b).
    repeat constructor; try exact Hpad; apply url_char_ascii; zdm.
  - pose proof (Z_of_byte_range a). pose proof (Z_of_byte_range b).
    pose proof (Z_of_byte_range c).
    repeat (constructor; [apply url_char_ascii; zdm|]). exact IH.
Qed.

End Base64Facts.

(** ** Fernet *)

Lemma os_urandom_length (env : Env) (n : nat) : length (os_urandom env n) = n.
Proof. unfold os_urandom. now rewrite length_map, length_seq. Qed.

Module FernetFacts.
Import Fernet.

(** A constructed object holds two 16-byte keys. *)
Lemma init_key_lengths (key : bytes) (f : t) :
  init key = Ok f ->
  length (signing_key f) = 16%nat /\ length (encryption_key f) = 16%nat.
Proof.
  unfold init. destruct (Base64.urlsafe_b64decode key) as [k|]; [|discriminate].
  destruct (Nat.eqb_spec (length k) 32); [|discriminate].
  intros [= <-]. cbn [signing_key encryption_key].
  rewrite length_take, length_drop. lia.
Qed.

(** [Fernet(key)] succeeds exactly on the keys that decode to 32 bytes. *)
Lemma init_spec (key : bytes) :
  match Base64.urlsafe_b64decode key with
  | Ok k =>
      if (length k =? 32)%nat
      then init key = Ok {| signing_key := take 16 k; encryption_key := drop 16 k |}
      else init key = Raise key_error
  | Raise _ => init key = Raise key_error
  end.
Proof.
  unfold init. destruct (Base64.urlsafe_b64decode key) as [k|]; [|reflexivity].
  destruct (length k =? 32)%nat; reflexivity.
Qed.

(** A generated key is accepted by the constructor. *)
Lemma init_generate_key (env : Env) :
  init (generate_key env) =
  Ok {| signing_key := take 16 (os_urandom env 32);
        encryption_key := drop 16 (os_urandom env 32) |}.
Proof.
  unfold init, generate_key.
  rewrite Base64Facts.urlsafe_b64decode_b64encode, os_urandom_length.
  reflexivity.
Qed.

Lemma pkcs7_pad_length (data : bytes) :
  (length (pkcs7_pad data) mod 16 = 0)%nat.
Proof.
  unfold pkcs7_pad. rewrite length_app, repeat_length.
  pose proof (Nat.mod_upper_bound (length data) 16 ltac:(lia)).
  pose proof (Nat.div_mod_eq (length data) 16).
  replace (length data + (16 - length data mod 16))%nat
    with ((1 + length data / 16) * 16)%nat by lia.
  apply Nat.Div0.mod_mul.
Qed.

(** Unpadding undoes padding. *)
Lemma pkcs7_unpad_pad (data : bytes) : pkcs7_unpad (pkcs7_pad data) = Ok data.
Proof.
  unfold pkcs7_unpad, pkcs7_pad.
  pose proof (Nat.mod_upper_bound (length data) 16 ltac:(lia)) as Hm.
  set (n := (16 - length data mod 16)%nat) in *.
  assert (Hn : (1 <= n <= 16)%nat) by (subst n; lia).
  set (b := byte_of_Z (Z.of_nat n)).
  assert (Hb : Z.to_nat (Z_of_byte b) = n).
  { subst b. rewrite Z_of_byte_of_Z by lia. lia. }
  assert (Hlast : last (data ++ repeat b n) = Some b).
  { destruct n as [|m]; [lia|]. cbn [repeat]. rewrite repeat_cons.
    rewrite app_assoc. apply last_snoc. }
  rewrite Hlast, Hb, length_app, repeat_length.
  replace (length data + n - n)%nat with (length data) by lia.
  rewrite drop_app_length, take_app_length.
  destruct (Nat.eqb_spec n 0); [lia|].
  destruct (Nat.ltb_spec 16 n); [lia|].
  destruct (Nat.ltb_spec (length data + n) n); [lia|].
  cbn [orb].
  assert (Hall : forallb (Byte.eqb b) (repeat b n) = true).
  { apply forallb_forall. intros y Hy. apply repeat_spec in Hy. subst y.
    apply Byte.byte_dec_lb. reflexivity. }
  now rewrite Hall.
Qed.

Lemma to_bytes_loop_length (len : nat) (n : Z) :
  length (to_bytes_loop len n) = len.
Proof.
  revert n. induction len as [|len IH]; intros n; [reflexivity|].
  cbn [to_bytes_loop]. rewrite length_app, IH. cbn [length]. lia.
Qed.

Lemma to_bytes_length (len : nat) (n : Z) (b : bytes) :
  to_bytes len n = Ok b -> length b = len.
Proof.
  unfold to_bytes. destruct ((n <? 0) || (256 ^ Z.of_nat len <=? n));
    [discriminate|].
  intros [= <-]. apply to_bytes_loop_length.
Qed.

Section WithPrimitives.
Variable P : Primitives.

(** [encrypt] fails only on a clock outside 64 bits. *)
Lemma encrypt_succeeds (f : t) (env : Env) (data : bytes) :
  0 <= now env < 2 ^ 64 -> exists token, encrypt P f env data = Ok token.
Proof.
  intros Hnow. unfold encrypt, encrypt_from_parts, to_bytes.
  replace ((now env <? 0) || (256 ^ Z.of_nat 8 <=? now env)) with false
    by (change (256 ^ Z.of_nat 8) with (2 ^ 64); lia).
  cbn [bind]. eauto.
Qed.

(** A token is ASCII. *)
Lemma encrypt_ascii (f : t) (env : Env) (data token : bytes) :
  encrypt P f env data = Ok token -> PyAscii.ascii token.
Proof.
  unfold encrypt, encrypt_from_parts. intros H. inv_bind H.
  injection H as <-. apply Base64Facts.urlsafe_b64encode_ascii.
Qed.

(** The layout of a token: version, timestamp, IV, ciphertext, tag. *)
Lemma decrypt_data_layout (f : t) (ts iv ct : bytes) :
  length ts = 8%nat -> length iv = 16%nat ->
  (length ct mod 16 = 0)%nat ->
  let basic_parts := (byte_of_Z 0x80 :: ts) ++ iv ++ ct in
  decrypt_data P f (basic_parts ++ hmac_sha256 P (signing_key f) basic_parts)
  = pkcs7_unpad (aes128_cbc_decrypt P (encryption_key f) iv ct).
Proof.
  intros Hts Hiv Hct basic_parts.
  unfold decrypt_data, verify_signature.
  set (tag := hmac_sha256 P (signing_key f) basic_parts).
  assert (Htag : length tag = 32%nat) by apply hmac_sha256_length.
  rewrite length_app, Htag.
  replace (length basic_parts + 32 - 32)%nat with (length basic_parts) by lia.
  rewrite take_app_length, drop_app_length.
  fold tag. rewrite bool_decide_eq_true_2 by reflexivity.
  cbn [bind].
  assert (Hiv' : take 16 (drop 9 (basic_parts ++ tag)) = iv).
  { subst basic_parts.
    rewrite <- !app_assoc.
    rewrite (drop_app_length' (byte_of_Z 128 :: ts)) by (cbn [length]; lia).
    rewrite (take_app_length' iv) by lia. reflexivity. }
  assert (Hct' : drop 25 basic_parts = ct).
  { subst basic_parts.
    rewrite app_assoc.
    apply drop_app_length'. rewrite length_app. cbn [length]. lia. }
  rewrite Hiv', Hct', Hiv, Hct. reflexivity.
Qed.

Lemma decrypt_encrypt_from_parts (f : t) (data : bytes) (current_time : Z)
    (iv token : bytes) :
  length (encryption_key f) = 16%nat ->
  length iv = 16%nat ->
  encrypt_from_parts P f data current_time iv = Ok token ->
  decrypt P f token = Ok data.
Proof.
  intros Hek Hiv Henc.
  unfold encrypt_from_parts in Henc.
  inv_bind Henc. injection Henc as <-.
  pose proof (to_bytes_length _ _ _ Hx) as Hts.
  set (ct := aes128_cbc_encrypt P (encryption_key f) iv (pkcs7_pad data)).
  assert (Hct : (length ct mod 16 = 0)%nat).
  { subst ct. rewrite aes128_cbc_length. apply pkcs7_pad_length. }
  pose proof (decrypt_data_layout f x iv ct Hts Hiv Hct) as Hlay.
  cbv zeta in Hlay.
  unfold decrypt, get_unverified_token_data.
  rewrite Base64Facts.urlsafe_b64decode_b64encode.
  cbn [app]. rewrite Z_of_byte_of_Z by lia. cbn [Z.eqb Pos.eqb negb].
  match goal with
  | |- context [(?a <? 9)%nat] => destruct (Nat.ltb_spec a 9) as [Hlt|_]
  end.
  { cbn [length] in Hlt. rewrite !length_app in Hlt. lia. }
  cbn [bind]. etransitivity; [apply Hlay|]. subst ct.
  rewrite aes128_cbc_inverse.
  - apply pkcs7_unpad_pad.
  - exact Hek.
  - exact Hiv.
  - pose proof (pkcs7_pad_length data) as Hp.
    apply (f_equal Z.of_nat) in Hp. rewrite Nat2Z.inj_mod in Hp. exact Hp.
Qed.

(** Decryption under the same object returns the plaintext. *)
Lemma decrypt_encrypt (key : bytes) (f : t) (env : Env) (data token : bytes) :
  init key = Ok f ->
  encrypt P f env data = Ok token ->
  decrypt P f token = Ok data.
Proof.
  intros Hinit Henc.
  destruct (init_key_lengths key f Hinit) as [_ Hek].
  apply (decrypt_encrypt_from_parts f data (now env) (os_urandom env 16));
    auto using os_urandom_length.
Qed.

End WithPrimitives.

End FernetFacts.

(** ** An instance of the primitives, for running the model

    A byte-wise shift cipher and a checksum tag.  They stand in for
    AES-128-CBC and HMAC-SHA256 where a statement is evaluated on concrete
    inputs; every theorem below holds for all instances of [Primitives]. *)

Module Toy.

Definition checksum (l : bytes) : Z :=
  fold_right (fun b acc => Z_of_byte b + acc) 0 l.

Definition shift_encrypt (key iv p : bytes) : bytes :=
  List.map (fun b => byte_of_Z (Z_of_byte b + checksum key + checksum iv)) p.

Definition shift_decrypt (key iv c : bytes) : bytes :=
  List.map (fun b => byte_of_Z (Z_of_byte b - checksum key - checksum iv)) c.

Definition tag (key d : bytes) : bytes :=
  repeat (byte_of_Z (checksum key + checksum d)) 32.

Lemma byte_of_Z_mod (z1 z2 : Z) :
  z1 mod 256 = z2 mod 256 -> byte_of_Z z1 = byte_of_Z z2.
Proof. unfold byte_of_Z. now intros ->. Qed.

Lemma Z_of_byte_of_Z_mod (z : Z) : Z_of_byte (byte_of_Z z) = z mod 256.
Proof.
  rewrite (byte_of_Z_mod z (z mod 256)) by (now rewrite Z.mod_mod).
  apply Z_of_byte_of_Z. apply Z.mod_pos_bound. lia.
Qed.

Lemma shift_length (key iv p : bytes) :
  length (shift_encrypt key iv p) = length p.
Proof. apply length_map. Qed.

Lemma shift_inverse (key iv p : bytes) :
  shift_decrypt key iv (shift_encrypt key iv p) = p.
Proof.
  unfold shift_decrypt, shift_encrypt. rewrite map_map.
  rewrite <- (map_id p) at 2. apply map_ext. intros b.
  rewrite Z_of_byte_of_Z_mod.
  rewrite <- (byte_of_Z_of_byte b) at 2. apply byte_of_Z_mod.
  pose proof (Z_of_byte_range b). zdm.
Qed.

Lemma tag_length (key d : bytes) : length (tag key d) = 32%nat.
Proof. apply repeat_length. Qed.

Definition primitives : Primitives := {|
  aes128_cbc_encrypt := shift_encrypt;
  aes128_cbc_decrypt := shift_decrypt;
  hmac_sha256 := tag;
  aes128_cbc_length := shift_length;
  aes128_cbc_inverse := fun key iv p _ _ _ => shift_inverse key iv p;
  hmac_sha256_length := tag_length
|}.

(** A clock reading and a random tape. *)
Definition env (seed : Z) : Env :=
  {| now := 1700000000 + seed;
     random := fun n => byte_of_Z (seed + 7 * Z.of_nat n + 3 * Z.of_nat n * Z.of_nat n) |}.

(** A directory with neither key file nor database. *)
Definition fresh : World := {| files := ∅; database := None |}.

(** A form filled in with literals. *)
Definition fill (self : App) (species genus habitat status : string) : App :=
  set_form self (Py.lit species, Py.lit genus, Py.lit habitat, Py.lit status).

(** The application started in a directory; the placeholder stands for
    a start that fails. *)
Definition start (e : Env) (w : World) : App :=
  match fst (__init__ e w) with
  | Ok self => self
  | Raise _ =>
      {| key_file := ""; cipher := {| Fernet.signing_key := [];
                                      Fernet.encryption_key := [] |};
         conn := Sqlite.empty_table; species_entry := []; genus_entry := [];
         habitat_entry := []; status_combobox := [] |}
  end.

(** The application started in the fresh directory. *)
Definition started : App := start (env 1) fresh.

(** The directory a run leaves, the key file then replaced by a key
    generated elsewhere. *)
Definition key_swapped (self : App) (e : Env) : World :=
  {| files := {[ "key.key"%string := Fernet.generate_key e ]};
     database := Some (conn self) |}.

(** The bytes of a literal. *)
Definition raw (s : string) : bytes := List.map byte_of_Z (Py.lit s).

(** The table of an application as its database file holds it. *)
Definition file_of (self : App) : list Stored.row :=
  match Stored.of_rows (Sqlite.rows (conn self)) with
  | Ok stored => stored
  | Raise _ => []
  end.

(** Two forms. *)
Definition hyla : Env * form :=
  (env 2, (Py.lit "Hyla arborea", Py.lit "Hyla", Py.lit "Reed", Py.lit "Least Concern")).
Definition bufo : Env * form :=
  (env 3, (Py.lit "Bufo bufo", Py.lit "Bufo", Py.lit "Wood", Py.lit "Vulnerable")).

End Toy.

(** The scenario of the specification: one record saved, then listed. *)
Example scenario :
  view_registry Toy.primitives
    (fst (save_record Toy.primitives (Toy.env 2)
            (Toy.fill Toy.started "Agalychnis callidryas" "Agalychnis"
               "Rainforest canopy" "Least Concern")))
  = [(1, Py.lit "Agalychnis callidryas", Py.lit "Agalychnis",
      Py.lit "Rainforest canopy", Py.lit "Least Concern")].
Proof. vm_compute. reflexivity. Qed.

(** ** [strip] *)

Module StripFacts.
Import Py.



Lemma strip_nil : strip [] = [].
Proof. reflexivity. Qed.

Lemma lstrip_split (s : str) :
  exists pre, s = pre ++ lstrip s /\ forallb isspace pre = true
              /\ (forall c r, lstrip s = c :: r -> isspace c = false).
Proof.
  induction s as [|c s (pre & Hs & Hpre & Hhd)].
  - exists []. split; [reflexivity|]. split; [reflexivity|]. discriminate.
  - cbn [lstrip]. destruct (isspace c) eqn:Hc.
    + exists (c :: pre). cbn [app forallb]. rewrite Hc, Hpre, <- Hs. auto.
    + exists []. split; [reflexivity|]. split; [reflexivity|].
      now intros c' r [= <- _].
Qed.

(** [strip] removes a run of whitespace at each end, and nothing else:
    what is left neither starts nor ends with whitespace. *)
Lemma strip_split (s : str) :
  exists pre post,
    s = pre ++ strip s ++ post
    /\ forallb isspace pre = true /\ forallb isspace post = true
    /\ (forall c r, strip s = c :: r -> isspace c = false)
    /\ (forall c r, strip s = r ++ [c] -> isspace c = false).
Proof.
  destruct (lstrip_split s) as (pre & Hs & Hpre & Hhd).
  destruct (lstrip_split (rev (lstrip s))) as (tsop & Hr & Hpost & Hlast).
  exists pre, (rev tsop). unfold strip, rstrip.
  assert (Hmid : lstrip s = rev (lstrip (rev (lstrip s))) ++ rev tsop).
  { rewrite <- rev_app_distr, <- Hr, rev_involutive. reflexivity. }
  split; [rewrite <- Hmid; exact Hs|].
  split; [exact Hpre|].
  split.
  { rewrite forallb_forall in *. intros c Hc. apply Hpost.
    now apply in_rev in Hc. }
  split.
  - intros c r Hcr. rewrite Hcr in Hmid.
    destruct (lstrip s) as [|c0 r0] eqn:Hls; [discriminate Hmid|].
    cbn [app] in Hmid. injection Hmid as -> _.
    eapply Hhd. reflexivity.
  - intros c r Hcr. apply (f_equal (@rev Z)) in Hcr.
    rewrite rev_involutive, rev_app_distr in Hcr. cbn [rev app] in Hcr.
    eapply Hlast. exact Hcr.
Qed.

End StripFacts.

(** ** The table *)

Module SqliteFacts.
Import Sqlite.

Lemma largest_rowid_bound (rs : list row) :
  Forall (fun r => id r <= largest_rowid rs) rs.
Proof.
  induction rs as [|r rs IH]; constructor; cbn [largest_rowid]; [lia|].
  eapply Forall_impl; [exact IH|]. cbv beta. intros; lia.
Qed.

(** A rowid above all others sends the row to the end. *)
Lemma insert_by_rowid_last (r : row) (rs : list row) :
  Forall (fun x => id x < id r) rs -> insert_by_rowid r rs = rs ++ [r].
Proof.
  induction 1 as [|x rs Hx _ IH]; [reflexivity|].
  cbn [insert_by_rowid app]. destruct (Z.ltb_spec (id r) (id x)); [lia|].
  now rewrite IH.
Qed.

(** What a successful [INSERT] does. *)
Lemma insert_Ok (t t' : table) (species genus habitat status : Py.str) :
  insert t species genus habitat status = Ok t' ->
  let i := top_rowid t + 1 in
  rows t' = rows t ++ [{| id := i; species_name := species; genus := genus;
                          habitat := habitat; conservation_status := status |}]
  /\ seq t' = i /\ i <= max_rowid.
Proof.
  unfold insert, bind_text. intros H.
  do 4 (inv_bind H; clear Hx).
  destruct (Z.leb_spec max_rowid (top_rowid t)); [discriminate|].
  injection H as <-. cbn [rows seq]. split; [|lia].
  apply insert_by_rowid_last. cbn [id].
  eapply Forall_impl; [apply largest_rowid_bound|]. cbv beta.
  unfold top_rowid. intros; lia.
Qed.


End SqliteFacts.

(** ** The methods *)

Lemma sorted_app (l1 l2 : list Z) (m : Z) :
  StronglySorted Z.lt l1 -> StronglySorted Z.lt l2 ->
  Forall (fun x => x <= m) l1 -> Forall (fun y => m < y) l2 ->
  StronglySorted Z.lt (l1 ++ l2).
Proof.
  intros H1 H2 Hle Hgt. induction H1 as [|a l1 Hs IH Ha]; [exact H2|].
  apply Forall_cons_1 in Hle as [Ham Hle].
  cbn [app]. constructor; [auto|].
  apply Forall_app. split; [exact Ha|].
  eapply Forall_impl; [exact Hgt|]. cbv beta. intros; lia.
Qed.

Section MethodFacts.
Variable P : Primitives.

Lemma save_record_unfold (env : Env) (self : App) :
  save_record P env self =
  if complete self then
    match encrypt_species P (cipher self) env (Py.strip (species_entry self)) with
    | Raise e => (self, Ok (encryption_failed e))
    | Ok token =>
        match Sqlite.insert (conn self) token (Py.strip (genus_entry self))
                (Py.strip (habitat_entry self)) (status_combobox self) with
        | Raise e => (self, Raise e)
        | Ok conn' =>
            ({| key_file := key_file self; cipher := cipher self; conn := conn';
                species_entry := []; genus_entry := []; habitat_entry := [];
                status_combobox := Py.lit "Least Concern" |},
             Ok saved_successfully)
        end
    end
  else (self, Ok all_fields_required).
Proof.
  unfold save_record, complete.
  destruct (Py.truthy (Py.strip (species_entry self))),
    (Py.truthy (Py.strip (genus_entry self))),
    (Py.truthy (Py.strip (habitat_entry self))),
    (Py.truthy (status_combobox self)); reflexivity.
Qed.


(** Every call leaves the table as it was or adds one row at its end,
    under the next rowid. *)
Lemma save_record_conn (env : Env) (self : App) :
  let self' := fst (save_record P env self) in
  cipher self' = cipher self /\
  (self' = self \/
   snd (save_record P env self) = Ok saved_successfully /\
   exists token,
     encrypt_species P (cipher self) env (Py.strip (species_entry self)) = Ok token
     /\ Sqlite.rows (conn self') =
        Sqlite.rows (conn self) ++
          [{| Sqlite.id := Sqlite.top_rowid (conn self) + 1;
              Sqlite.species_name := token;
              Sqlite.genus := Py.strip (genus_entry self);
              Sqlite.habitat := Py.strip (habitat_entry self);
              Sqlite.conservation_status := status_combobox self |}]
     /\ Sqlite.seq (conn self') = Sqlite.top_rowid (conn self) + 1
     /\ status_combobox self' = Py.lit "Least Concern").
Proof.
  rewrite save_record_unfold.
  destruct (complete self); [|cbn; auto].
  destruct (encrypt_species P (cipher self) env _) as [token|e] eqn:He;
    [|cbn; auto].
  destruct (Sqlite.insert _ _ _ _ _) as [conn'|e] eqn:Hi; [|cbn; auto].
  cbn [fst snd cipher conn status_combobox]. split; [reflexivity|]. right.
  split; [reflexivity|]. exists token.
  destruct (SqliteFacts.insert_Ok _ _ _ _ _ _ Hi) as (Hr & Hs & _). auto.
Qed.

Lemma largest_rowid_nonneg (rs : list Sqlite.row) : 0 <= Sqlite.largest_rowid rs.
Proof. induction rs; cbn [Sqlite.largest_rowid]; lia. Qed.

Lemma largest_rowid_snoc (rs : list Sqlite.row) (r : Sqlite.row) :
  Sqlite.largest_rowid (rs ++ [r]) = Z.max (Sqlite.largest_rowid rs) (Z.max (Sqlite.id r) 0).
Proof.
  induction rs as [|x rs IH]; cbn [app Sqlite.largest_rowid]; [lia|].
  rewrite IH. lia.
Qed.

(** The rowids of a sequence of calls: the rows added lie behind the
    rows there were, each rowid above the one before. *)
Lemma save_all_rows (l : list (Env * form)) (self : App) :
  let self' := save_all P self l in
  cipher self' = cipher self /\
  Sqlite.top_rowid (conn self) <= Sqlite.top_rowid (conn self') /\
  exists new,
    Sqlite.rows (conn self') = Sqlite.rows (conn self) ++ new
    /\ StronglySorted Z.lt (List.map Sqlite.id new)
    /\ Forall (fun i => Sqlite.top_rowid (conn self) < i) (List.map Sqlite.id new).
Proof.
  revert self. induction l as [|[env f] l IH]; intros self.
  - cbn. split; [reflexivity|]. split; [lia|]. exists [].
    rewrite app_nil_r. repeat constructor.
  - cbn [save_all fold_left fst snd].
    set (filled := set_form self f).
    assert (Hf : conn filled = conn self /\ cipher filled = cipher self)
      by (subst filled; destruct f as [[[? ?] ?] ?]; auto).
    destruct Hf as [Hfc Hfk].
    destruct (save_record_conn env filled) as [Hk Hstep].
    specialize (IH (fst (save_record P env filled))).
    fold (save_all P (fst (save_record P env filled)) l).
    set (mid := fst (save_record P env filled)) in *.
    cbv zeta in IH. destruct IH as (Hk' & Hle & new & Hrows & Hsorted & Hall).
    split; [congruence|].
    destruct Hstep as [Hsame | (_ & token & _ & Hr & Hs & _)].
    + rewrite Hsame, Hfc in *. split; [exact Hle|]. exists new. auto.
    + rewrite Hfc in *.
      set (r := {| Sqlite.id := Sqlite.top_rowid (conn self) + 1 |}) in *.
      assert (Htop : Sqlite.top_rowid (conn mid) = Sqlite.top_rowid (conn self) + 1).
      { unfold Sqlite.top_rowid at 1. rewrite Hr, Hs, largest_rowid_snoc.
        subst r. cbn [Sqlite.id]. unfold Sqlite.top_rowid.
        pose proof (largest_rowid_nonneg (Sqlite.rows (conn self))). lia. }
      split; [lia|]. exists (r :: new).
      split; [rewrite Hrows, Hr, <- app_assoc; reflexivity|].
      cbn [List.map]. split.
      * constructor; [exact Hsorted|].
        eapply Forall_impl; [exact Hall|]. cbv beta. subst r. cbn [Sqlite.id].
        intros; lia.
      * constructor; [subst r; cbn [Sqlite.id]; lia|].
        eapply Forall_impl; [exact Hall|]. cbv beta. intros; lia.
Qed.

End MethodFacts.

(** ** Encrypting and decrypting a species name *)

Section SpeciesFacts.
Variable P : Primitives.

(** Line 124 undoes line 81 when the object came from the constructor. *)
Lemma decrypt_species_encrypt_species (key : bytes) (c : Fernet.t) (env : Env)
    (s token : Py.str) :
  Fernet.init key = Ok c ->
  encrypt_species P c env s = Ok token ->
  decrypt_species P c token = Ok s.
Proof.
  intros Hinit H. unfold encrypt_species in H.
  inv_bind H. inv_bind H.
  pose proof (FernetFacts.encrypt_ascii P _ _ _ _ Hx0) as Hascii.
  rewrite (PyAscii.decode_ascii _ Hascii) in H. injection H as <-.
  unfold decrypt_species.
  rewrite (PyAscii.encode_ascii _ Hascii). cbn [bind].
  rewrite (FernetFacts.decrypt_encrypt P key c env x x0 Hinit Hx0). cbn [bind].
  apply PyFacts.decode_encode. exact Hx.
Qed.



End SpeciesFacts.

(** * The claims *)




(** On a table whose text decoded, [view_registry] shows one line per
    row, in the same position; the line carries the row's identifier,
    genus, habitat and conservation status as stored, and its species name
    is the marker "Decryption Error" when the stored text cannot be
    decrypted and the decrypted name otherwise.  A line depends on its own
    row only, so a row that fails leaves the lines of the others as they
    are. *)
Theorem view_registry_marks_undecryptable_rows (P : Primitives) (self : App) :
  length (view_registry P self) = length (Sqlite.rows (conn self))
  /\ forall (i : nat) (row : Sqlite.row),
       Sqlite.rows (conn self) !! i = Some row ->
       exists shown,
         view_registry P self !! i =
           Some (Sqlite.id row, shown, Sqlite.genus row, Sqlite.habitat row,
                 Sqlite.conservation_status row)
         /\ match decrypt_species P (cipher self) (Sqlite.species_name row) with
            | Raise _ => shown = Py.lit "Decryption Error"
            | Ok plain => shown = plain
            end.
Proof.
  unfold view_registry, Sqlite.select_all. split; [apply length_map|].
  intros i row Hrow.
  change (List.map (view_row P (cipher self)) (Sqlite.rows (conn self)))
    with (view_row P (cipher self) <$> Sqlite.rows (conn self)).
  rewrite list_lookup_fmap, Hrow. cbn [fmap option_fmap option_map].
  unfold view_row.
  destruct (decrypt_species P (cipher self) (Sqlite.species_name row)) as [s|e];
    eexists; split; reflexivity.
Qed.

(** The key file swapped between two runs: the row of the first run shows
    the marker with its other four values intact, the row saved under the
    new key is decrypted. *)
Example key_swapped_between_runs :
  let first :=
    fst (save_record Toy.primitives (Toy.env 2)
           (Toy.fill Toy.started "Hyla arborea" "Hyla" "Reed" "Least Concern")) in
  let second :=
    fst (save_record Toy.primitives (Toy.env 4)
           (Toy.fill (Toy.start (Toy.env 3) (Toy.key_swapped first (Toy.env 9)))
              "Bufo bufo" "Bufo" "Wood" "Vulnerable")) in
  view_registry Toy.primitives first =
    [(1, Py.lit "Hyla arborea", Py.lit "Hyla", Py.lit "Reed", Py.lit "Least Concern")]
  /\ view_registry Toy.primitives second =
    [(1, Py.lit "Decryption Error", Py.lit "Hyla", Py.lit "Reed", Py.lit "Least Concern");
     (2, Py.lit "Bufo bufo", Py.lit "Bufo", Py.lit "Wood", Py.lit "Vulnerable")].
Proof. vm_compute. split; reflexivity. Qed.

(** ** The listing of a table read from the file *)

Lemma fetch_row_of_row (r : Sqlite.row) (st : Stored.row) :
  Stored.of_row r = Ok st -> Stored.fetch_row st = Ok r.
Proof.
  unfold Stored.of_row. intros H. do 4 inv_bind H. injection H as <-.
  unfold Stored.fetch_row, Stored.column_text.
  cbn [Stored.species_name Stored.genus Stored.habitat
       Stored.conservation_status Stored.id].
  rewrite (PyFacts.decode_encode _ _ Hx), (PyFacts.decode_encode _ _ Hx0),
    (PyFacts.decode_encode _ _ Hx1), (PyFacts.decode_encode _ _ Hx2).
  cbn [bind]. now destruct r.
Qed.

(** What the program stored it fetches back. *)
Lemma fetchall_of_rows (rs : list Sqlite.row) (stored : list Stored.row) :
  Stored.of_rows rs = Ok stored -> Stored.fetchall stored = Ok rs.
Proof.
  revert stored. induction rs as [|r rs IH]; intros stored H.
  - injection H as <-. reflexivity.
  - cbn [Stored.of_rows] in H. do 2 inv_bind H. injection H as <-.
    cbn [Stored.fetchall].
    now rewrite (fetch_row_of_row _ _ Hx), (IH _ Hx0).
Qed.

(** On the file of a table of text the listing is [view_registry]. *)
Lemma view_registry_from_file_of_rows (P : Primitives) (self : App)
    (stored : list Stored.row) :
  Stored.of_rows (Sqlite.rows (conn self)) = Ok stored ->
  view_registry_from_file P (cipher self) stored = Ok (view_registry P self).
Proof.
  intros H. unfold view_registry_from_file.
  now rewrite (fetchall_of_rows _ _ H).
Qed.

(** One row whose species name is not UTF-8, anywhere in the table, and
    the listing shows no line at all. *)
Lemma undecodable_text_aborts_the_listing (P : Primitives) (c : Fernet.t)
    (stored : list Stored.row) (r : Stored.row) :
  In r stored ->
  succeeds (Py.decode (Stored.species_name r)) = false ->
  succeeds (view_registry_from_file P c stored) = false.
Proof.
  intros Hin Hbad. unfold view_registry_from_file.
  assert (H : succeeds (Stored.fetchall stored) = false).
  { induction stored as [|x stored IH]; [contradiction|].
    cbn [Stored.fetchall]. destruct Hin as [-> | Hin].
    - unfold Stored.fetch_row, Stored.column_text at 1.
      destruct (Py.decode (Stored.species_name r)); [discriminate|reflexivity].
    - destruct (Stored.fetch_row x); [|reflexivity]. cbn [bind].
      specialize (IH Hin). destruct (Stored.fetchall stored); [discriminate|].
      reflexivity. }
  destruct (Stored.fetchall stored); [discriminate|reflexivity].
Qed.

(** C2 (the code falls short of it): the loop of [view_registry] guards
    the decryption of each row, but the rows are fetched before it, outside
    the [try].  A table of two rows the application saved is listed; with
    the species name of the first replaced by text that is no token, the
    first line shows the marker and the second is decrypted, as the claim
    says; with it replaced by two bytes that are not UTF-8, [fetchall]
    raises [OperationalError] and neither row is listed. *)
Theorem undecodable_species_name_aborts_the_listing :
  view_registry_from_file Toy.primitives (cipher Toy.started)
    (Toy.file_of (save_all Toy.primitives Toy.started [Toy.hyla; Toy.bufo]))
  = Ok [(1, Py.lit "Hyla arborea", Py.lit "Hyla", Py.lit "Reed", Py.lit "Least Concern");
        (2, Py.lit "Bufo bufo", Py.lit "Bufo", Py.lit "Wood", Py.lit "Vulnerable")]
  /\ view_registry_from_file Toy.primitives (cipher Toy.started)
       (alter (Stored.with_species_name (Toy.raw "gAAAAABno-token")) 0%nat
          (Toy.file_of (save_all Toy.primitives Toy.started [Toy.hyla; Toy.bufo])))
     = Ok [(1, Py.lit "Decryption Error", Py.lit "Hyla", Py.lit "Reed",
            Py.lit "Least Concern");
           (2, Py.lit "Bufo bufo", Py.lit "Bufo", Py.lit "Wood", Py.lit "Vulnerable")]
  /\ view_registry_from_file Toy.primitives (cipher Toy.started)
       (alter (Stored.with_species_name [byte_of_Z 0x80; byte_of_Z 0xFF]) 0%nat
          (Toy.file_of (save_all Toy.primitives Toy.started [Toy.hyla; Toy.bufo])))
     = Raise (OperationalError "Could not decode to UTF-8 column 'species_name'").
Proof. vm_compute. repeat split; reflexivity. Qed.

(** C3: when any of the four fields is empty, [save_record] shows the
    validation error and returns the object as it was: the table is not
    touched and holds as many rows as before. *)
Theorem save_record_rejects_empty_field (P : Primitives) (env : Env) (self : App) :
  species_entry self = [] \/ genus_entry self = [] \/ habitat_entry self = []
  \/ status_combobox self = [] ->
  save_record P env self = (self, Ok all_fields_required)
  /\ conn (fst (save_record P env self)) = conn self
  /\ length (Sqlite.rows (conn (fst (save_record P env self))))
     = length (Sqlite.rows (conn self)).
Proof.
  intros H.
  assert (Hrej : save_record P env self = (self, Ok all_fields_required)).
  { rewrite save_record_unfold. unfold complete.
    destruct H as [-> | [-> | [-> | ->]]]; rewrite ?StripFacts.strip_nil;
      cbn [Py.truthy]; rewrite ?andb_false_r; reflexivity. }
  rewrite Hrej. auto.
Qed.

Lemma save_record_rejects_empty_field_witness :
  save_record Toy.primitives (Toy.env 2)
    (Toy.fill Toy.started "Rana temporaria" "" "Pond" "Vulnerable")
  = (Toy.fill Toy.started "Rana temporaria" "" "Pond" "Vulnerable",
     Ok all_fields_required)
  /\ conn (fst (save_record Toy.primitives (Toy.env 2)
                  (Toy.fill Toy.started "Rana temporaria" "" "Pond" "Vulnerable")))
     = conn (Toy.fill Toy.started "Rana temporaria" "" "Pond" "Vulnerable")
  /\ length (Sqlite.rows (conn (fst (save_record Toy.primitives (Toy.env 2)
                  (Toy.fill Toy.started "Rana temporaria" "" "Pond" "Vulnerable")))))
     = length (Sqlite.rows (conn
                  (Toy.fill Toy.started "Rana temporaria" "" "Pond" "Vulnerable"))).
Proof.
  apply (save_record_rejects_empty_field Toy.primitives (Toy.env 2)
           (Toy.fill Toy.started "Rana temporaria" "" "Pond" "Vulnerable")).
  right. left. reflexivity.
Defined.

(** C4: a second call of [load_or_generate_key] on the files the first
    call left returns what the first returned, key for key, and leaves the
    files as they are; and when there was no key file the first call
    succeeds and leaves the generated key in the file. *)
Theorem load_or_generate_key_twice (path : string) (env1 env2 : Env)
    (fs : gmap string bytes) :
  load_or_generate_key path env2 (snd (load_or_generate_key path env1 fs))
  = load_or_generate_key path env1 fs
  /\ (fs !! path = None ->
      succeeds (fst (load_or_generate_key path env1 fs)) = true
      /\ snd (load_or_generate_key path env1 fs) !! path
         = Some (Fernet.generate_key env1)).
Proof.
  destruct (fs !! path) as [key|] eqn:Hfs.
  - split; [|discriminate]. unfold load_or_generate_key. rewrite Hfs.
    cbn [snd]. now rewrite Hfs.
  - assert (H1 : load_or_generate_key path env1 fs
                 = (Fernet.init (Fernet.generate_key env1),
                    <[path := Fernet.generate_key env1]> fs))
      by (unfold load_or_generate_key; now rewrite Hfs).
    rewrite H1. cbn [fst snd]. split.
    + unfold load_or_generate_key. now rewrite lookup_insert_eq.
    + intros _. rewrite FernetFacts.init_generate_key, lookup_insert_eq. auto.
Qed.

Section CountFacts.
Variable P : Primitives.

(** A call that does not report success returns the object as it was; a
    call that reports success has appended one row under the next rowid. *)
Lemma save_record_counted (env : Env) (self : App) :
  reported_success (snd (save_record P env self)) = false
  /\ fst (save_record P env self) = self
  \/ reported_success (snd (save_record P env self)) = true
     /\ exists r,
          Sqlite.rows (conn (fst (save_record P env self)))
            = Sqlite.rows (conn self) ++ [r]
          /\ Sqlite.id r = Sqlite.top_rowid (conn self) + 1
          /\ Sqlite.seq (conn (fst (save_record P env self))) = Sqlite.id r.
Proof.
  rewrite save_record_unfold.
  destruct (complete self); [|now left].
  destruct (encrypt_species P (cipher self) env _) as [token|e]; [|now left].
  destruct (Sqlite.insert _ _ _ _ _) as [conn'|e] eqn:Hi; [|now left].
  right. cbn [fst snd conn reported_success saved_successfully].
  split; [reflexivity|].
  destruct (SqliteFacts.insert_Ok _ _ _ _ _ _ Hi) as (Hr & Hs & _).
  eexists. split; [exact Hr|]. cbn [Sqlite.id]. auto.
Qed.

Lemma top_rowid_bounds (t : Sqlite.table) :
  Sqlite.seq t <= Sqlite.top_rowid t
  /\ Forall (fun old => Sqlite.id old <= Sqlite.top_rowid t) (Sqlite.rows t).
Proof.
  unfold Sqlite.top_rowid. split; [lia|].
  eapply Forall_impl; [apply SqliteFacts.largest_rowid_bound|].
  cbv beta. intros; lia.
Qed.

Lemma top_rowid_snoc (t t' : Sqlite.table) (r : Sqlite.row) :
  Sqlite.rows t' = Sqlite.rows t ++ [r] ->
  Sqlite.id r = Sqlite.top_rowid t + 1 ->
  Sqlite.seq t' = Sqlite.id r ->
  Sqlite.top_rowid t' = Sqlite.top_rowid t + 1.
Proof.
  intros Hr Hid Hs. unfold Sqlite.top_rowid at 1.
  rewrite Hr, Hs, largest_rowid_snoc, Hid. unfold Sqlite.top_rowid.
  pose proof (largest_rowid_nonneg (Sqlite.rows t)). lia.
Qed.

(** The rows of a sequence of calls, counted: one row for each call that
    reports success, none for the others. *)
Lemma save_all_rows_counted (l : list (Env * form)) (self : App) :
  exists new,
    Sqlite.rows (conn (save_all P self l)) = Sqlite.rows (conn self) ++ new
    /\ length new = successes P self l
    /\ StronglySorted Z.lt (List.map Sqlite.id new)
    /\ Forall (fun i => Sqlite.top_rowid (conn self) < i) (List.map Sqlite.id new).
Proof.
  revert self. induction l as [|[env f] l IH]; intros self.
  - exists []. cbn. rewrite app_nil_r. repeat constructor.
  - cbn [save_all fold_left successes fst snd].
    set (filled := set_form self f).
    assert (Hfc : conn filled = conn self)
      by (subst filled; destruct f as [[[? ?] ?] ?]; auto).
    fold (save_all P (fst (save_record P env filled)) l).
    destruct (IH (fst (save_record P env filled)))
      as (new & Hrows & Hlen & Hsorted & Hall).
    destruct (save_record_counted env filled)
      as [[Hno Hsame] | [Hyes (r & Hr & Hid & Hs)]].
    + rewrite Hno. rewrite Hsame, Hfc in *. exists new. auto.
    + rewrite Hyes. rewrite Hfc in *.
      pose proof (top_rowid_snoc _ _ _ Hr Hid Hs) as Htop.
      exists (r :: new). cbn [length List.map].
      split; [rewrite Hrows, Hr, <- app_assoc; reflexivity|].
      split; [lia|]. split.
      * constructor; [exact Hsorted|].
        eapply Forall_impl; [exact Hall|]. cbv beta. intros; lia.
      * constructor; [lia|].
        eapply Forall_impl; [exact Hall|]. cbv beta. intros; lia.
Qed.

End CountFacts.

(** C5: over every sequence of [save_record] calls, whatever the form
    holds before each, every call that reports success adds exactly one
    row and no other call adds any; the rows added stand behind the rows
    there were, in the order of the calls, and their identifiers are
    strictly increasing, hence distinct; each is greater than the counter
    of identifiers handed out before and than the identifier of every row
    that was there.  And a further call that reports success appends one
    row whose identifier is greater than the counter and than the
    identifier of every row of the table. *)
Theorem identifiers_strictly_increasing (P : Primitives) (self : App)
    (l : list (Env * form)) :
  exists new : list Sqlite.row,
    Sqlite.rows (conn (save_all P self l)) = Sqlite.rows (conn self) ++ new
    /\ length new = successes P self l
    /\ StronglySorted Z.lt (List.map Sqlite.id new)
    /\ NoDup (List.map Sqlite.id new)
    /\ Forall (fun i => Sqlite.seq (conn self) < i
                        /\ Forall (fun old => Sqlite.id old < i)
                             (Sqlite.rows (conn self)))
         (List.map Sqlite.id new)
    /\ forall (env : Env) (f : form),
         reported_success
           (snd (save_record P env (set_form (save_all P self l) f))) = true ->
         exists r,
           Sqlite.rows (conn (fst (save_record P env
                                     (set_form (save_all P self l) f))))
             = (Sqlite.rows (conn self) ++ new) ++ [r]
           /\ Sqlite.seq (conn (save_all P self l)) < Sqlite.id r
           /\ Forall (fun old => Sqlite.id old < Sqlite.id r)
                (Sqlite.rows (conn self) ++ new).
Proof.
  destruct (save_all_rows_counted P l self)
    as (new & Hrows & Hlen & Hsorted & Habove).
  exists new. split; [exact Hrows|]. split; [exact Hlen|].
  split; [exact Hsorted|]. split; [|split].
  - clear Habove Hrows Hlen. induction Hsorted as [|i ids _ IH Hi];
      constructor; auto.
    intros Hin. rewrite Forall_forall in Hi.
    specialize (Hi i Hin). lia.
  - destruct (top_rowid_bounds (conn self)) as [Hseq Hold].
    eapply Forall_impl; [exact Habove|]. cbv beta. intros i Hi.
    split; [lia|].
    eapply Forall_impl; [exact Hold|]. cbv beta. intros; lia.
  - intros env f Hyes.
    set (filled := set_form (save_all P self l) f) in *.
    assert (Hfc : conn filled = conn (save_all P self l))
      by (subst filled; destruct f as [[[? ?] ?] ?]; auto).
    destruct (save_record_counted P env filled)
      as [[Hno _] | [_ (r & Hr & Hid & _)]]; [congruence|].
    rewrite Hfc in Hr, Hid. exists r. rewrite <- Hrows.
    destruct (top_rowid_bounds (conn (save_all P self l))) as [Hseq Hold].
    split; [exact Hr|]. split; [lia|].
    eapply Forall_impl; [exact Hold|]. cbv beta. intros; lia.
Qed.

(** Three calls, the second rejected: identifiers 1 and 2. *)
Example identifiers_of_three_calls :
  List.map Sqlite.id
    (Sqlite.rows (conn (save_all Toy.primitives Toy.started
       [(Toy.env 2, (Py.lit "Hyla arborea", Py.lit "Hyla", Py.lit "Reed", Py.lit "Extinct"));
        (Toy.env 3, (Py.lit "Bufo bufo", Py.lit "  ", Py.lit "Wood", Py.lit "Extinct"));
        (Toy.env 4, (Py.lit "Bufo bufo", Py.lit "Bufo", Py.lit "Wood", Py.lit "Extinct"))])))
  = [1; 2].
Proof. vm_compute. reflexivity. Qed.

(** Four characters give at most three bytes: what the decoder returns is
    bounded by what it read and the quad it started in. *)
Lemma a2b_loop_length (s : bytes) :
  forall (quad_pos leftchar pads : Z) (out : bytes),
    0 <= quad_pos <= 3 ->
    Base64.a2b_loop s quad_pos leftchar pads = Ok out ->
    4 * Z.of_nat (length out)
    <= 3 * Z.of_nat (length s) + (if quad_pos =? 0 then 0 else 4 - quad_pos).
Proof.
  induction s as [|c s IH]; intros q lc pads out Hq H; cbn [Base64.a2b_loop] in H.
  - destruct (Z.eqb_spec q 0); [|discriminate]. injection H as <-. cbn. lia.
  - cbn [length]. rewrite Nat2Z.inj_succ.
    destruct (Z_of_byte c =? Base64.pad_char).
    + destruct (2 <=? q).
      * destruct (4 <=? q + (pads + 1)).
        -- injection H as <-. cbn [length]. destruct (q =? 0); lia.
        -- specialize (IH _ _ _ _ Hq H). destruct (q =? 0); lia.
      * specialize (IH _ _ _ _ Hq H). destruct (q =? 0); lia.
    + destruct (Base64.table_a2b (Z_of_byte c)) as [v|].
      2:{ specialize (IH _ _ _ _ Hq H). destruct (q =? 0); lia. }
      destruct (Z.eqb_spec q 0) as [->|Hq0].
      { specialize (IH 1 _ _ _ ltac:(lia) H). cbn [Z.eqb] in IH. lia. }
      destruct (Z.eqb_spec q 1) as [->|Hq1].
      { inv_bind H. injection H as <-. cbn [length]. rewrite Nat2Z.inj_succ.
        specialize (IH 2 _ _ _ ltac:(lia) Hx). cbn [Z.eqb] in IH. lia. }
      destruct (Z.eqb_spec q 2) as [->|Hq2].
      { inv_bind H. injection H as <-. cbn [length]. rewrite Nat2Z.inj_succ.
        specialize (IH 3 _ _ _ ltac:(lia) Hx). cbn [Z.eqb] in IH. lia. }
      inv_bind H. injection H as <-. cbn [length]. rewrite Nat2Z.inj_succ.
      specialize (IH 0 _ _ _ ltac:(lia) Hx). cbn [Z.eqb] in IH. lia.
Qed.

(** [Fernet(key)] refuses every key of fewer than 43 bytes: they cannot
    decode to 32. *)
Lemma init_short_key (key : bytes) :
  (length key <= 42)%nat -> Fernet.init key = Raise Fernet.key_error.
Proof.
  intros Hlen. unfold Fernet.init.
  destruct (Base64.urlsafe_b64decode key) as [k|e] eqn:Hk; [|reflexivity].
  unfold Base64.urlsafe_b64decode, Base64.a2b_base64 in Hk.
  apply a2b_loop_length in Hk; [|lia]. rewrite length_map in Hk. cbn [Z.eqb] in Hk.
  destruct (Nat.eqb_spec (length k) 32); [lia|reflexivity].
Qed.

(** C6 (as amended): when the key file exists, [load_or_generate_key]
    reads its bytes and hands them, unchanged and unchecked by itself, to
    the constructor [Fernet], leaving the file as it is, and returns what
    the constructor returns.  That is an object exactly when the decoder
    of [base64] gets 32 bytes out of the file, whatever else the file
    holds, the object holding their two halves; in every other case the
    call itself raises [ValueError].  It does so in particular on every
    file of fewer than 43 bytes, so on every key cut off before its last
    two bytes. *)
Theorem load_or_generate_key_existing_file (path : string) (env : Env)
    (fs : gmap string bytes) (key : bytes) :
  fs !! path = Some key ->
  load_or_generate_key path env fs = (Fernet.init key, fs)
  /\ (forall f,
        Fernet.init key = Ok f <->
        exists k, Base64.urlsafe_b64decode key = Ok k /\ length k = 32%nat
                  /\ f = {| Fernet.signing_key := take 16 k;
                            Fernet.encryption_key := drop 16 k |})
  /\ (succeeds (Fernet.init key) = false -> Fernet.init key = Raise Fernet.key_error)
  /\ ((length key <= 42)%nat ->
      load_or_generate_key path env fs = (Raise Fernet.key_error, fs)).
Proof.
  intros Hfs.
  assert (Hload : load_or_generate_key path env fs = (Fernet.init key, fs))
    by (unfold load_or_generate_key; now rewrite Hfs).
  split; [exact Hload|].
  assert (Hshort : (length key <= 42)%nat ->
            load_or_generate_key path env fs = (Raise Fernet.key_error, fs))
    by (intros Hlen; now rewrite Hload, (init_short_key key Hlen)).
  pose proof (FernetFacts.init_spec key) as Hspec.
  destruct (Base64.urlsafe_b64decode key) as [k|e].
  - destruct (Nat.eqb_spec (length k) 32) as [Hlen|Hlen].
    + rewrite Hspec. split; [|split; [discriminate|exact Hshort]].
      intros f. split.
      * intros [= <-]. exists k. auto.
      * intros (k' & [= <-] & _ & ->). reflexivity.
    + rewrite Hspec. split; [|split; [reflexivity|exact Hshort]].
      intros f. split; [discriminate|].
      intros (k' & [= <-] & Hk & _). contradiction.
  - rewrite Hspec. split; [|split; [reflexivity|exact Hshort]].
    intros f. split; [discriminate|]. intros (k' & Hk & _). discriminate.
Qed.

Lemma load_or_generate_key_existing_file_witness :
  load_or_generate_key "key.key" (Toy.env 5)
    {[ "key.key"%string := Fernet.generate_key (Toy.env 1) ]}
  = (Fernet.init (Fernet.generate_key (Toy.env 1)),
     {[ "key.key"%string := Fernet.generate_key (Toy.env 1) ]})
  /\ (forall f,
        Fernet.init (Fernet.generate_key (Toy.env 1)) = Ok f <->
        exists k, Base64.urlsafe_b64decode (Fernet.generate_key (Toy.env 1)) = Ok k
                  /\ length k = 32%nat
                  /\ f = {| Fernet.signing_key := take 16 k;
                            Fernet.encryption_key := drop 16 k |})
  /\ (succeeds (Fernet.init (Fernet.generate_key (Toy.env 1))) = false ->
      Fernet.init (Fernet.generate_key (Toy.env 1)) = Raise Fernet.key_error)
  /\ ((length (Fernet.generate_key (Toy.env 1)) <= 42)%nat ->
      load_or_generate_key "key.key" (Toy.env 5)
        {[ "key.key"%string := Fernet.generate_key (Toy.env 1) ]}
      = (Raise Fernet.key_error,
         {[ "key.key"%string := Fernet.generate_key (Toy.env 1) ]})).
Proof.
  apply (load_or_generate_key_existing_file "key.key" (Toy.env 5)
           {[ "key.key"%string := Fernet.generate_key (Toy.env 1) ]}
           (Fernet.generate_key (Toy.env 1))).
  apply lookup_singleton_eq.
Defined.

(** A key file that is not the encoding of a key and yet is accepted: the
    generated key with a line feed after it gives the same object as the
    key alone. *)
Example key_file_with_line_feed_is_accepted :
  Fernet.init (Fernet.generate_key (Toy.env 1) ++ [byte_of_Z 10])
  = Fernet.init (Fernet.generate_key (Toy.env 1))
  /\ succeeds (Fernet.init (Fernet.generate_key (Toy.env 1) ++ [byte_of_Z 10])) = true.
Proof. vm_compute. split; reflexivity. Qed.

(** C6 (as stated) fails: a key file cut off after 20 of its 44 bytes is
    not accepted; the call itself raises [ValueError], and so does the
    start of the application. *)
Lemma truncated_key_file_is_refused :
  load_or_generate_key "key.key" (Toy.env 5)
    {[ "key.key"%string := take 20 (Fernet.generate_key (Toy.env 1)) ]}
  = (Raise (ValueError "Fernet key must be 32 url-safe base64-encoded bytes."),
     {[ "key.key"%string := take 20 (Fernet.generate_key (Toy.env 1)) ]})
  /\ fst (__init__ (Toy.env 5)
            {| files := {[ "key.key"%string := take 20 (Fernet.generate_key (Toy.env 1)) ]};
               database := None |})
     = Raise (ValueError "Fernet key must be 32 url-safe base64-encoded bytes.").
Proof.
  assert (H : load_or_generate_key "key.key" (Toy.env 5)
    {[ "key.key"%string := take 20 (Fernet.generate_key (Toy.env 1)) ]}
  = (Raise (ValueError "Fernet key must be 32 url-safe base64-encoded bytes."),
     {[ "key.key"%string := take 20 (Fernet.generate_key (Toy.env 1)) ]})).
  { unfold load_or_generate_key. rewrite lookup_singleton_eq.
    replace (Fernet.init (take 20 (Fernet.generate_key (Toy.env 1))))
      with (@Raise Fernet.t
              (ValueError "Fernet key must be 32 url-safe base64-encoded bytes."))
      by (vm_compute; reflexivity).
    reflexivity. }
  split; [exact H|]. unfold __init__. cbn [files]. rewrite H. reflexivity.
Qed.

(** ** The form and its combobox *)

Section FormFacts.
Variable P : Primitives.

Lemma least_concern_listed : In (Py.lit "Least Concern") status_values.
Proof. left. reflexivity. Qed.

Lemma started_status (env : Env) (w : World) (self : App) :
  fst (__init__ env w) = Ok self ->
  status_combobox self = Py.lit "Least Concern".
Proof.
  unfold __init__.
  destruct (load_or_generate_key "key.key" env (files w)) as [[c|e] fs];
    cbn [fst]; [|discriminate].
  now intros [= <-].
Qed.

(** One action keeps the combobox on a listed value, and a row it adds
    carries the value the combobox held. *)
Lemma step_status (self : App) (a : action) :
  In (status_combobox self) status_values ->
  In (status_combobox (step P self a)) status_values
  /\ forall r, In r (Sqlite.rows (conn (step P self a))) ->
       In r (Sqlite.rows (conn self))
       \/ In (Sqlite.conservation_status r) status_values.
Proof.
  intros Hin. destruct a as [s|s|s|i|env|]; cbn [step];
    try (cbn [status_combobox conn]; now auto).
  - destruct (status_values !! i) as [v|] eqn:Hv; [|now auto].
    cbn [status_combobox conn]. split; [|now auto].
    apply list_elem_of_In. eapply list_elem_of_lookup_2. exact Hv.
  - destruct (save_record_conn P env self) as [_ [Hsame | (_ & token & _ & Hr & _ & Hst)]].
    + rewrite Hsame. auto.
    + rewrite Hst, Hr. split; [apply least_concern_listed|].
      intros r Hrin. apply in_app_or in Hrin as [Hold | [<- | []]]; [now left|].
      right. exact Hin.
Qed.

Lemma run_status (l : list action) (self : App) :
  In (status_combobox self) status_values ->
  In (status_combobox (run P self l)) status_values
  /\ forall r, In r (Sqlite.rows (conn (run P self l))) ->
       In r (Sqlite.rows (conn self))
       \/ In (Sqlite.conservation_status r) status_values.
Proof.
  revert self. induction l as [|a l IH]; intros self Hin; [cbn; auto|].
  cbn [run fold_left]. destruct (step_status self a Hin) as [Hin' Hrows'].
  destruct (IH _ Hin') as [Hfin Hrows]. split; [exact Hfin|].
  intros r Hr. destruct (Hrows r Hr) as [Hmid | Hlisted]; [|now right].
  apply Hrows'. exact Hmid.
Qed.

End FormFacts.

(** C7 (as amended): whatever the user does with the form after the
    start, the read-only combobox holds one of the six listed values, and
    every row saved through the form carries one of them.  The restriction
    is the combobox's: [save_record] itself refuses no status but the empty
    one. *)
Theorem status_is_one_of_the_listed_values (P : Primitives) (env : Env)
    (w : World) (self : App) (l : list action) :
  fst (__init__ env w) = Ok self ->
  In (status_combobox (run P self l)) status_values
  /\ forall r, In r (Sqlite.rows (conn (run P self l))) ->
       In r (Sqlite.rows (conn self))
       \/ In (Sqlite.conservation_status r) status_values.
Proof.
  intros Hstart. apply run_status.
  rewrite (started_status env w self Hstart). apply least_concern_listed.
Qed.

Lemma status_is_one_of_the_listed_values_witness :
  In (status_combobox
        (run Toy.primitives Toy.started
           [Edit_species (Py.lit "Bufo bufo"); Edit_genus (Py.lit "Bufo");
            Edit_habitat (Py.lit "Wood"); Select_status 3; Press_save (Toy.env 2);
            Select_status 9; Press_view]))
     status_values
  /\ forall r,
       In r (Sqlite.rows (conn
         (run Toy.primitives Toy.started
           [Edit_species (Py.lit "Bufo bufo"); Edit_genus (Py.lit "Bufo");
            Edit_habitat (Py.lit "Wood"); Select_status 3; Press_save (Toy.env 2);
            Select_status 9; Press_view]))) ->
       In r (Sqlite.rows (conn Toy.started))
       \/ In (Sqlite.conservation_status r) status_values.
Proof.
  apply (status_is_one_of_the_listed_values Toy.primitives (Toy.env 1) Toy.fresh
           Toy.started).
  vm_compute. reflexivity.
Defined.

(** C7 (as stated) fails: with the combobox set to a text that is not
    among the six values, [save_record] reports success and the table holds
    a row with that text as its conservation status. *)
Lemma unlisted_status_is_saved :
  snd (save_record Toy.primitives (Toy.env 2)
         (Toy.fill Toy.started "Bufo bufo" "Bufo" "Wood" "Unknown"))
  = Ok saved_successfully
  /\ List.map Sqlite.conservation_status
       (Sqlite.rows (conn (fst (save_record Toy.primitives (Toy.env 2)
          (Toy.fill Toy.started "Bufo bufo" "Bufo" "Wood" "Unknown")))))
     = [Py.lit "Unknown"]
  /\ ~ In (Py.lit "Unknown") status_values.
Proof.
  split; [vm_compute; reflexivity|]. split; [vm_compute; reflexivity|].
  intros H. vm_compute in H.
  repeat (destruct H as [H|H]; [discriminate H|]). exact H.
Qed.

(** ** The listing *)

Lemma view_registry_ids (P : Primitives) (self : App) :
  List.map item_id (view_registry P self) = List.map Sqlite.id (Sqlite.rows (conn self)).
Proof.
  unfold view_registry, Sqlite.select_all. rewrite map_map.
  apply map_ext. intros r. reflexivity.
Qed.

(** C8: after any sequence of [save_record] calls on a table in rowid
    order, [view_registry] shows a line for every row of the table, none
    left out and none added, in the order of storage: the line at each
    position is that of the row at that position, with the row's
    identifier, genus, habitat and conservation status as stored and its
    species name decrypted (the marker when that fails).  The identifiers
    of the lines are strictly ascending; and the lines of the rows that
    were there come first, unchanged, followed by those of the rows saved
    since, so that the order is the order of insertion. *)
Theorem view_registry_lists_every_row_in_order (P : Primitives) (self : App)
    (l : list (Env * form)) :
  StronglySorted Z.lt (List.map Sqlite.id (Sqlite.rows (conn self))) ->
  List.map item_id (view_registry P (save_all P self l))
    = List.map Sqlite.id (Sqlite.rows (conn (save_all P self l)))
  /\ length (view_registry P (save_all P self l))
     = length (Sqlite.rows (conn (save_all P self l)))
  /\ StronglySorted Z.lt (List.map item_id (view_registry P (save_all P self l)))
  /\ (exists added, view_registry P (save_all P self l) = view_registry P self ++ added)
  /\ (forall (i : nat) (row : Sqlite.row),
        Sqlite.rows (conn (save_all P self l)) !! i = Some row ->
        exists shown,
          view_registry P (save_all P self l) !! i =
            Some (Sqlite.id row, shown, Sqlite.genus row, Sqlite.habitat row,
                  Sqlite.conservation_status row)
          /\ match decrypt_species P (cipher self) (Sqlite.species_name row) with
             | Raise _ => shown = Py.lit "Decryption Error"
             | Ok plain => shown = plain
             end).
Proof.
  intros Hsorted.
  destruct (save_all_rows P l self) as (Hc & _ & new & Hrows & Hnew & Habove).
  split; [apply view_registry_ids|].
  split; [unfold view_registry, Sqlite.select_all; apply length_map|].
  split; [|split].
  - rewrite view_registry_ids, Hrows, List.map_app.
    apply (sorted_app _ _ (Sqlite.top_rowid (conn self))); auto.
    apply Forall_map.
    eapply Forall_impl; [apply SqliteFacts.largest_rowid_bound|].
    cbv beta. unfold Sqlite.top_rowid. intros; lia.
  - exists (List.map (view_row P (cipher self)) new).
    unfold view_registry, Sqlite.select_all.
    now rewrite Hrows, Hc, List.map_app.
  - intros i row Hrow. rewrite <- Hc.
    now apply (view_registry_marks_undecryptable_rows P (save_all P self l)).
Qed.

Lemma view_registry_lists_every_row_in_order_witness :
  List.map item_id
    (view_registry Toy.primitives
       (save_all Toy.primitives Toy.started [Toy.hyla; Toy.bufo]))
    = List.map Sqlite.id
        (Sqlite.rows (conn (save_all Toy.primitives Toy.started [Toy.hyla; Toy.bufo])))
  /\ length (view_registry Toy.primitives
               (save_all Toy.primitives Toy.started [Toy.hyla; Toy.bufo]))
     = length (Sqlite.rows
                 (conn (save_all Toy.primitives Toy.started [Toy.hyla; Toy.bufo])))
  /\ StronglySorted Z.lt
       (List.map item_id
          (view_registry Toy.primitives
             (save_all Toy.primitives Toy.started [Toy.hyla; Toy.bufo])))
  /\ (exists added,
        view_registry Toy.primitives
          (save_all Toy.primitives Toy.started [Toy.hyla; Toy.bufo])
        = view_registry Toy.primitives Toy.started ++ added)
  /\ (forall (i : nat) (row : Sqlite.row),
        Sqlite.rows (conn (save_all Toy.primitives Toy.started [Toy.hyla; Toy.bufo]))
          !! i = Some row ->
        exists shown,
          view_registry Toy.primitives
            (save_all Toy.primitives Toy.started [Toy.hyla; Toy.bufo]) !! i =
            Some (Sqlite.id row, shown, Sqlite.genus row, Sqlite.habitat row,
                  Sqlite.conservation_status row)
          /\ match decrypt_species Toy.primitives (cipher Toy.started)
                     (Sqlite.species_name row) with
             | Raise _ => shown = Py.lit "Decryption Error"
             | Ok plain => shown = plain
             end).
Proof.
  apply (view_registry_lists_every_row_in_order Toy.primitives Toy.started
           [Toy.hyla; Toy.bufo]).
  replace (Sqlite.rows (conn Toy.started)) with (@nil Sqlite.row)
    by (vm_compute; reflexivity).
  constructor.
Defined.

(** The listing of two saved rows, in full. *)
Example listing_of_two_rows :
  view_registry Toy.primitives
    (save_all Toy.primitives Toy.started [Toy.hyla; Toy.bufo])
  = [(1, Py.lit "Hyla arborea", Py.lit "Hyla", Py.lit "Reed", Py.lit "Least Concern");
     (2, Py.lit "Bufo bufo", Py.lit "Bufo", Py.lit "Wood", Py.lit "Vulnerable")].
Proof. vm_compute. reflexivity. Qed.

(** C9: when the four fields pass the validation and encrypting the
    stripped species name raises, [save_record] shows the error box that
    carries the exception and returns the object as it was: no row is
    written and the table is left untouched. *)
Theorem encryption_failure_aborts_the_save (P : Primitives) (env : Env)
    (self : App) (e : exn) :
  complete self = true ->
  encrypt_species P (cipher self) env (Py.strip (species_entry self)) = Raise e ->
  save_record P env self = (self, Ok (showerror "Error" (Encryption_failed e)))
  /\ conn (fst (save_record P env self)) = conn self
  /\ view_registry P (fst (save_record P env self)) = view_registry P self.
Proof.
  intros Hcomplete Henc.
  assert (H : save_record P env self
              = (self, Ok (showerror "Error" (Encryption_failed e)))).
  { rewrite save_record_unfold, Hcomplete, Henc. reflexivity. }
  rewrite H. auto.
Qed.

Lemma encryption_failure_aborts_the_save_witness :
  save_record Toy.primitives (Toy.env 2)
    (set_form Toy.started ([0x52; 0xD800; 0x61], Py.lit "Rana", Py.lit "Pond",
                           Py.lit "Extinct"))
  = (set_form Toy.started ([0x52; 0xD800; 0x61], Py.lit "Rana", Py.lit "Pond",
                           Py.lit "Extinct"),
     Ok (showerror "Error" (Encryption_failed UnicodeEncodeError)))
  /\ conn (fst (save_record Toy.primitives (Toy.env 2)
       (set_form Toy.started ([0x52; 0xD800; 0x61], Py.lit "Rana", Py.lit "Pond",
                              Py.lit "Extinct"))))
     = conn (set_form Toy.started ([0x52; 0xD800; 0x61], Py.lit "Rana",
                                   Py.lit "Pond", Py.lit "Extinct"))
  /\ view_registry Toy.primitives (fst (save_record Toy.primitives (Toy.env 2)
       (set_form Toy.started ([0x52; 0xD800; 0x61], Py.lit "Rana", Py.lit "Pond",
                              Py.lit "Extinct"))))
     = view_registry Toy.primitives
         (set_form Toy.started ([0x52; 0xD800; 0x61], Py.lit "Rana",
                                Py.lit "Pond", Py.lit "Extinct")).
Proof.
  apply (encryption_failure_aborts_the_save Toy.primitives (Toy.env 2)
           (set_form Toy.started ([0x52; 0xD800; 0x61], Py.lit "Rana",
                                  Py.lit "Pond", Py.lit "Extinct"))
           UnicodeEncodeError);
    vm_compute; reflexivity.
Defined.



(** A form with blanks around each text: the row holds the texts without
    them. *)
Example blanks_are_not_stored :
  List.map (fun r => (Sqlite.genus r, Sqlite.habitat r))
    (Sqlite.rows (conn (fst (save_record Toy.primitives (Toy.env 2)
       (Toy.fill Toy.started "  Hyla arborea " " Hyla" "Reed bed  " "Extinct")))))
  = [(Py.lit "Hyla", Py.lit "Reed bed")]
  /\ snd (save_record Toy.primitives (Toy.env 2)
            (Toy.fill Toy.started "Hyla arborea" "   " "Reed bed" "Extinct"))
     = Ok all_fields_required.
Proof. vm_compute. split; reflexivity. Qed.

(** * Further properties of the methods *)

(** ** How [encrypt_species] and the [INSERT] can fail *)

Lemma encode_Raise (s : Py.str) (e : exn) :
  Py.encode s = Raise e -> e = UnicodeEncodeError.
Proof.
  induction s as [|c s IH]; [discriminate|].
  cbn [Py.encode]. unfold Py.utf8_encode_char.
  destruct ((c <? 0) || Py.is_surrogate c || (1114111 <? c));
    [now intros [= <-]|].
  assert (Hok : forall b : bytes,
            bind (Ok b) (fun b => bind (Py.encode s) (fun bs => Ok (b ++ bs)))
            = Raise e -> e = UnicodeEncodeError).
  { intros b. cbn [bind]. destruct (Py.encode s); [discriminate|].
    cbn [bind]. intros [= <-]. now apply IH. }
  destruct (c <? 128); [apply Hok|]. destruct (c <? 2048); [apply Hok|].
  destruct (c <? 65536); apply Hok.
Qed.

Lemma b2a_base64_nonempty (a : byte) (s : bytes) : Base64.b2a_base64 (a :: s) <> [].
Proof. destruct s as [|b [|c s]]; discriminate. Qed.

Section OutcomeFacts.
Variable P : Primitives.

(** Line 81 in full: a lone surrogate stops [encode], a clock outside 64
    bits stops [encrypt], and nothing else does; the token is non-empty
    ASCII. *)
Lemma encrypt_species_cases (c : Fernet.t) (env : Env) (s : Py.str) :
  if succeeds (Py.encode s) then
    if (0 <=? now env) && (now env <? 2 ^ 64) then
      exists token,
        encrypt_species P c env s = Ok token
        /\ token <> [] /\ Forall (fun x => 0 <= x < 0x80) token
        /\ succeeds (Py.encode token) = true
    else encrypt_species P c env s = Raise OverflowError
  else encrypt_species P c env s = Raise UnicodeEncodeError.
Proof.
  unfold encrypt_species.
  destruct (Py.encode s) as [b|e] eqn:Hb; cbn [succeeds bind].
  2:{ now rewrite (encode_Raise s e Hb). }
  destruct ((0 <=? now env) && (now env <? 2 ^ 64)) eqn:Hnow.
  - destruct (FernetFacts.encrypt_succeeds P c env b ltac:(lia)) as [tok Htok].
    rewrite Htok. cbn [bind].
    pose proof (FernetFacts.encrypt_ascii P _ _ _ _ Htok) as Hascii.
    rewrite (PyAscii.decode_ascii _ Hascii). eexists. split; [reflexivity|].
    split; [|split].
    + unfold Fernet.encrypt, Fernet.encrypt_from_parts in Htok.
      inv_bind Htok. injection Htok as <-.
      unfold Base64.urlsafe_b64encode. cbn [app].
      destruct (Base64.b2a_base64 _) eqn:Hb64;
        [now apply b2a_base64_nonempty in Hb64 | discriminate].
    + apply Forall_map. eapply Forall_impl; [exact Hascii|]. cbv beta.
      intros x Hx. pose proof (Z_of_byte_range x). lia.
    + now rewrite (PyAscii.encode_ascii _ Hascii).
  - unfold Fernet.encrypt, Fernet.encrypt_from_parts, Fernet.to_bytes.
    replace ((now env <? 0) || (256 ^ Z.of_nat 8 <=? now env)) with true
      by (change (256 ^ Z.of_nat 8) with (2 ^ 64); lia).
    reflexivity.
Qed.


End OutcomeFacts.

(** ** The outcome of [save_record], decided by its inputs *)


(** The five failing branches and the succeeding one, each on a form that
    reaches it. *)
Example save_record_outcome_branches :
  List.map (fun x => snd (save_record Toy.primitives (fst x) (snd x)))
    [(Toy.env 2, Toy.fill Toy.started "Bufo bufo" " " "Wood" "Extinct");
     (Toy.env 2, set_form Toy.started
                   ([0xDC00], Py.lit "Bufo", Py.lit "Wood", Py.lit "Extinct"));
     ({| now := -1; random := random (Toy.env 2) |},
      Toy.fill Toy.started "Bufo bufo" "Bufo" "Wood" "Extinct");
     (Toy.env 2, set_form Toy.started
                   (Py.lit "Bufo bufo", [0x42; 0xDFFF], Py.lit "Wood", Py.lit "Extinct"));
     (Toy.env 2,
      {| key_file := key_file Toy.started; cipher := cipher Toy.started;
         conn := {| Sqlite.rows := []; Sqlite.seq := Sqlite.max_rowid |};
         species_entry := Py.lit "Bufo bufo"; genus_entry := Py.lit "Bufo";
         habitat_entry := Py.lit "Wood"; status_combobox := Py.lit "Extinct" |});
     (Toy.env 2, Toy.fill Toy.started "Bufo bufo" "Bufo" "Wood" "Extinct")]
  = [Ok all_fields_required;
     Ok (encryption_failed UnicodeEncodeError);
     Ok (encryption_failed OverflowError);
     Raise UnicodeEncodeError;
     Raise (OperationalError "database or disk is full");
     Ok saved_successfully].
Proof. vm_compute. reflexivity. Qed.

(** ** What every stored row looks like *)

(** A text that is not empty and neither starts nor ends with
    whitespace. *)
Definition trimmed (s : Py.str) : bool :=
  match s with
  | [] => false
  | c :: _ => negb (Py.isspace c) && negb (Py.isspace (List.last s 0))
  end.

(** A row as [save_record] writes it: a non-empty ASCII token as species
    name, a trimmed genus and habitat, a non-empty status. *)
Definition written_by_save_record (r : Sqlite.row) : bool :=
  Py.truthy (Sqlite.species_name r)
  && forallb (fun x => (0 <=? x) && (x <? 0x80)) (Sqlite.species_name r)
  && trimmed (Sqlite.genus r)
  && trimmed (Sqlite.habitat r)
  && Py.truthy (Sqlite.conservation_status r).

(** The identifiers of the table are 1, 2, ... without a gap, and the
    counter stands at the last of them. *)
Definition consecutive (t : Sqlite.table) : Prop :=
  List.map Sqlite.id (Sqlite.rows t)
    = List.map Z.of_nat (List.seq 1 (length (Sqlite.rows t)))
  /\ Sqlite.seq t = Z.of_nat (length (Sqlite.rows t)).

(** The directory a process leaves behind: the files as they are, the
    database holding the committed table. *)
Definition left_behind (self : App) (w : World) : World :=
  {| files := files w; database := Some (conn self) |}.

Lemma strip_trimmed (s : Py.str) : Py.strip s <> [] -> trimmed (Py.strip s) = true.
Proof.
  intros Hne.
  destruct (StripFacts.strip_split s) as (_ & _ & _ & _ & _ & Hhead & Hlast).
  destruct (Py.strip s) as [|c r] eqn:Hs; [contradiction|].
  unfold trimmed. rewrite (Hhead c r eq_refl). cbn [negb andb].
  assert (Hsplit : c :: r = removelast (c :: r) ++ [List.last (c :: r) 0])
    by (apply app_removelast_last; discriminate).
  now rewrite (Hlast _ _ Hsplit).
Qed.

Section InvariantFacts.
Variable P : Primitives.

(** One call either returns the object as it was, or it passed the
    validation, encrypted the stripped species name and appended the row. *)
Lemma save_record_step (env : Env) (self : App) :
  fst (save_record P env self) = self
  \/ complete self = true
     /\ cipher (fst (save_record P env self)) = cipher self
     /\ exists token,
          encrypt_species P (cipher self) env (Py.strip (species_entry self))
            = Ok token
          /\ Sqlite.rows (conn (fst (save_record P env self))) =
             Sqlite.rows (conn self) ++
               [{| Sqlite.id := Sqlite.top_rowid (conn self) + 1;
                   Sqlite.species_name := token;
                   Sqlite.genus := Py.strip (genus_entry self);
                   Sqlite.habitat := Py.strip (habitat_entry self);
                   Sqlite.conservation_status := status_combobox self |}]
          /\ Sqlite.seq (conn (fst (save_record P env self)))
             = Sqlite.top_rowid (conn self) + 1.
Proof.
  rewrite save_record_unfold.
  destruct (complete self); [|now left].
  destruct (encrypt_species P (cipher self) env _) as [token|e] eqn:He;
    [|now left].
  destruct (Sqlite.insert _ _ _ _ _) as [conn'|e] eqn:Hi; [|now left].
  right. cbn [fst cipher conn]. split; [reflexivity|]. split; [reflexivity|].
  exists token. split; [reflexivity|].
  destruct (SqliteFacts.insert_Ok _ _ _ _ _ _ Hi) as (Hr & Hs & _). auto.
Qed.

(** A property of rows that every row [save_record] can write under the
    cipher [c] has, holds of the whole table after any sequence of calls
    if it held before. *)
Lemma save_all_Forall (Q : Sqlite.row -> Prop) (c : Fernet.t) :
  (forall env s token i,
     cipher s = c -> complete s = true ->
     encrypt_species P c env (Py.strip (species_entry s)) = Ok token ->
     Q {| Sqlite.id := i; Sqlite.species_name := token;
          Sqlite.genus := Py.strip (genus_entry s);
          Sqlite.habitat := Py.strip (habitat_entry s);
          Sqlite.conservation_status := status_combobox s |}) ->
  forall l self,
    cipher self = c ->
    Forall Q (Sqlite.rows (conn self)) ->
    Forall Q (Sqlite.rows (conn (save_all P self l))).
Proof.
  intros HQ l. induction l as [|[env f] l IH]; intros self Hc Hall; [exact Hall|].
  cbn [save_all fold_left fst snd].
  set (filled := set_form self f).
  assert (Hf : conn filled = conn self /\ cipher filled = cipher self)
    by (subst filled; destruct f as [[[? ?] ?] ?]; auto).
  destruct Hf as [Hfc Hfk].
  fold (save_all P (fst (save_record P env filled)) l).
  destruct (save_record_step env filled) as [Hsame | (Hcomp & Hk & token & Henc & Hr & _)].
  - apply IH; rewrite Hsame; congruence.
  - apply IH; [congruence|]. rewrite Hr, Hfc. apply Forall_app. split; [exact Hall|].
    constructor; [|constructor].
    apply (HQ env filled token); [congruence|exact Hcomp|].
    rewrite <- Hc, <- Hfk. exact Henc.
Qed.

End InvariantFacts.

(** Over any sequence of [save_record] calls the table keeps the shape
    the method gives its rows: when every row had a non-empty ASCII token
    as species name, a genus and a habitat that are non-empty and carry no
    whitespace at either end, and a non-empty status, every row has them
    afterwards. *)
Theorem stored_rows_stay_trimmed (P : Primitives) (self : App)
    (l : list (Env * form)) :
  Forall (fun r => written_by_save_record r = true) (Sqlite.rows (conn self)) ->
  Forall (fun r => written_by_save_record r = true)
    (Sqlite.rows (conn (save_all P self l))).
Proof.
  apply (save_all_Forall P _ (cipher self)); [|reflexivity].
  intros env s token i _ Hcomp Henc.
  unfold written_by_save_record.
  cbn [Sqlite.species_name Sqlite.genus Sqlite.habitat Sqlite.conservation_status].
  unfold complete in Hcomp.
  apply andb_true_iff in Hcomp as [Hcomp Hst].
  apply andb_true_iff in Hcomp as [Hcomp Hha].
  apply andb_true_iff in Hcomp as [_ Hge].
  pose proof (encrypt_species_cases P (cipher self) env (Py.strip (species_entry s)))
    as Hcases.
  destruct (succeeds (Py.encode (Py.strip (species_entry s))));
    [|rewrite Henc in Hcases; discriminate].
  destruct ((0 <=? now env) && (now env <? 2 ^ 64));
    [|rewrite Henc in Hcases; discriminate].
  destruct Hcases as (token' & Henc' & Hne & Hascii & _).
  rewrite Henc in Henc'. injection Henc' as <-.
  rewrite !andb_true_iff. repeat split.
  - destruct token; [contradiction|reflexivity].
  - apply forallb_forall. rewrite List.Forall_forall in Hascii.
    intros x Hx. specialize (Hascii x Hx). lia.
  - apply strip_trimmed. now destruct (Py.strip (genus_entry s)).
  - apply strip_trimmed. now destruct (Py.strip (habitat_entry s)).
  - exact Hst.
Qed.

Lemma stored_rows_stay_trimmed_witness :
  Forall (fun r => written_by_save_record r = true)
    (Sqlite.rows (conn (save_all Toy.primitives Toy.started
       [(Toy.env 2, (Py.lit "  Hyla arborea", Py.lit " Hyla  ", Py.lit "Reed bed ",
                     Py.lit "Extinct"));
        (Toy.env 3, (Py.lit "Bufo bufo", Py.lit "Bufo", Py.lit "Wood",
                     Py.lit "Vulnerable"))]))).
Proof.
  apply (stored_rows_stay_trimmed Toy.primitives Toy.started).
  replace (Sqlite.rows (conn Toy.started)) with (@nil Sqlite.row)
    by (vm_compute; reflexivity).
  constructor.
Defined.

(** The rows an application writes it can read: under a cipher built by
    the constructor, when the species name of every row decrypted before a
    sequence of [save_record] calls, the species name of every row decrypts
    after it, so that [view_registry] shows the marker on none of them. *)
Theorem own_rows_always_decrypt (P : Primitives) (key : bytes) (self : App)
    (l : list (Env * form)) :
  Fernet.init key = Ok (cipher self) ->
  Forall (fun r => succeeds (decrypt_species P (cipher self) (Sqlite.species_name r))
                   = true)
    (Sqlite.rows (conn self)) ->
  cipher (save_all P self l) = cipher self
  /\ Forall (fun r => succeeds (decrypt_species P (cipher self) (Sqlite.species_name r))
                      = true)
       (Sqlite.rows (conn (save_all P self l))).
Proof.
  intros Hinit Hall. split; [apply (save_all_rows P l self)|].
  apply (save_all_Forall P _ (cipher self)); [|reflexivity|exact Hall].
  intros env s token i _ _ Henc. cbn [Sqlite.species_name].
  now rewrite (decrypt_species_encrypt_species P key _ env _ _ Hinit Henc).
Qed.

Lemma own_rows_always_decrypt_witness :
  cipher (save_all Toy.primitives Toy.started
       [(Toy.env 2, (Py.lit "Hyla arborea", Py.lit "Hyla", Py.lit "Reed", Py.lit "Extinct"));
        (Toy.env 3, (Py.lit "Decryption Error", Py.lit "Bufo", Py.lit "Wood",
                     Py.lit "Vulnerable"))])
  = cipher Toy.started
  /\ Forall (fun r => succeeds (decrypt_species Toy.primitives (cipher Toy.started)
                                  (Sqlite.species_name r)) = true)
       (Sqlite.rows (conn (save_all Toy.primitives Toy.started
       [(Toy.env 2, (Py.lit "Hyla arborea", Py.lit "Hyla", Py.lit "Reed", Py.lit "Extinct"));
        (Toy.env 3, (Py.lit "Decryption Error", Py.lit "Bufo", Py.lit "Wood",
                     Py.lit "Vulnerable"))]))).
Proof.
  apply (own_rows_always_decrypt Toy.primitives (Fernet.generate_key (Toy.env 1))
           Toy.started).
  - vm_compute. reflexivity.
  - replace (Sqlite.rows (conn Toy.started)) with (@nil Sqlite.row)
      by (vm_compute; reflexivity).
    constructor.
Defined.

(** ** Identifiers without gaps *)

Lemma largest_rowid_le (rs : list Sqlite.row) (m : Z) :
  0 <= m -> Forall (fun i => i <= m) (List.map Sqlite.id rs) ->
  Sqlite.largest_rowid rs <= m.
Proof.
  intros Hm. induction rs as [|r rs IH]; cbn [List.map Sqlite.largest_rowid];
    [lia|].
  intros H. apply Forall_cons_1 in H as [Hr Hrs]. specialize (IH Hrs). lia.
Qed.

Lemma consecutive_top_rowid (t : Sqlite.table) :
  consecutive t -> Sqlite.top_rowid t = Z.of_nat (length (Sqlite.rows t)).
Proof.
  intros [Hids Hseq]. unfold Sqlite.top_rowid. rewrite Hseq.
  assert (Sqlite.largest_rowid (Sqlite.rows t) <= Z.of_nat (length (Sqlite.rows t))).
  { apply largest_rowid_le; [lia|]. rewrite Hids. apply Forall_map.
    apply List.Forall_forall. intros n Hn. apply in_seq in Hn. cbv beta. lia. }
  lia.
Qed.

(** A rejected or failed call uses up no identifier: over any sequence of
    [save_record] calls on a table whose identifiers are 1, 2, ..., n with
    the counter at n, the identifiers stay 1, 2, ... without a gap, the
    counter at the last of them. *)
Theorem identifiers_have_no_gaps (P : Primitives) (self : App)
    (l : list (Env * form)) :
  consecutive (conn self) -> consecutive (conn (save_all P self l)).
Proof.
  revert self. induction l as [|[env f] l IH]; intros self Hcons; [exact Hcons|].
  cbn [save_all fold_left fst snd].
  set (filled := set_form self f).
  assert (Hfc : conn filled = conn self)
    by (subst filled; destruct f as [[[? ?] ?] ?]; auto).
  fold (save_all P (fst (save_record P env filled)) l). apply IH.
  destruct (save_record_step P env filled) as [Hsame | (_ & _ & token & _ & Hr & Hs)].
  - rewrite Hsame, Hfc. exact Hcons.
  - rewrite Hfc in Hr, Hs. rewrite (consecutive_top_rowid _ Hcons) in Hr, Hs.
    destruct Hcons as [Hids Hseq]. unfold consecutive.
    rewrite Hr, Hs, List.map_app, length_app, Hids. cbn [length List.map Sqlite.id].
    replace (length (Sqlite.rows (conn self)) + 1)%nat
      with (S (length (Sqlite.rows (conn self)))) by lia.
    rewrite seq_S, List.map_app. cbn [List.map]. split; [|lia].
    do 2 f_equal. lia.
Qed.

Lemma identifiers_have_no_gaps_witness :
  consecutive (conn (save_all Toy.primitives Toy.started
    [(Toy.env 2, (Py.lit "Hyla arborea", Py.lit "Hyla", Py.lit "Reed", Py.lit "Extinct"));
     (Toy.env 3, (Py.lit "Bufo bufo", Py.lit "", Py.lit "Wood", Py.lit "Extinct"));
     (Toy.env 4, (Py.lit "Bufo bufo", Py.lit "Bufo", Py.lit "Wood", Py.lit "Extinct"))])).
Proof.
  apply (identifiers_have_no_gaps Toy.primitives Toy.started).
  vm_compute. split; reflexivity.
Defined.

(** ** Starting the application *)

Section RestartFacts.
Variable P : Primitives.

(** What was saved survives a restart: after a start and any sequence of
    [save_record] calls, a second start in the directory left behind
    succeeds, changes nothing in the directory, builds the same cipher from
    the key file and holds the same table, so that [view_registry] shows
    the lines it showed before the restart. *)
Theorem restart_keeps_key_and_rows (env env' : Env) (w : World) (self : App)
    (l : list (Env * form)) :
  fst (__init__ env w) = Ok self ->
  exists again,
    __init__ env' (left_behind (save_all P self l) (snd (__init__ env w)))
    = (Ok again, left_behind (save_all P self l) (snd (__init__ env w)))
    /\ cipher again = cipher (save_all P self l)
    /\ conn again = conn (save_all P self l)
    /\ view_registry P again = view_registry P (save_all P self l).
Proof.
  intros Hstart.
  destruct (save_all_rows P l self) as (Hc & _).
  set (self' := save_all P self l) in *.
  assert (Hload : exists fs,
            snd (__init__ env w) = {| files := fs; database := Some (conn self) |}
            /\ load_or_generate_key "key.key" env' fs = (Ok (cipher self), fs)).
  { unfold __init__, load_or_generate_key in Hstart |- *.
    destruct (files w !! "key.key"%string) as [key|] eqn:Hk.
    - destruct (Fernet.init key) as [c|e] eqn:Hi; cbn [fst snd] in *;
        [|discriminate].
      injection Hstart as <-. cbn [cipher conn]. eexists. split; [reflexivity|].
      now rewrite Hk, Hi.
    - rewrite FernetFacts.init_generate_key in *. cbn [fst snd] in *.
      injection Hstart as <-. cbn [cipher conn]. eexists. split; [reflexivity|].
      now rewrite lookup_insert_eq, FernetFacts.init_generate_key. }
  destruct Hload as (fs & Hw & Hload).
  unfold left_behind. rewrite Hw. cbn [files database].
  unfold __init__. cbn [files database]. rewrite Hload.
  cbn [create_table Sqlite.create_table_if_not_exists].
  eexists. split; [reflexivity|]. cbn [cipher conn].
  split; [congruence|]. split; [reflexivity|].
  unfold view_registry. cbn [cipher conn]. now rewrite Hc.
Qed.

End RestartFacts.

Lemma restart_keeps_key_and_rows_witness :
  exists again,
    __init__ (Toy.env 7)
      (left_behind
         (save_all Toy.primitives Toy.started
            [(Toy.env 2, (Py.lit "Hyla arborea", Py.lit "Hyla", Py.lit "Reed",
                          Py.lit "Extinct"))])
         (snd (__init__ (Toy.env 1) Toy.fresh)))
    = (Ok again,
       left_behind
         (save_all Toy.primitives Toy.started
            [(Toy.env 2, (Py.lit "Hyla arborea", Py.lit "Hyla", Py.lit "Reed",
                          Py.lit "Extinct"))])
         (snd (__init__ (Toy.env 1) Toy.fresh)))
    /\ cipher again
       = cipher (save_all Toy.primitives Toy.started
            [(Toy.env 2, (Py.lit "Hyla arborea", Py.lit "Hyla", Py.lit "Reed",
                          Py.lit "Extinct"))])
    /\ conn again
       = conn (save_all Toy.primitives Toy.started
            [(Toy.env 2, (Py.lit "Hyla arborea", Py.lit "Hyla", Py.lit "Reed",
                          Py.lit "Extinct"))])
    /\ view_registry Toy.primitives again
       = view_registry Toy.primitives
           (save_all Toy.primitives Toy.started
              [(Toy.env 2, (Py.lit "Hyla arborea", Py.lit "Hyla", Py.lit "Reed",
                            Py.lit "Extinct"))]).
Proof.
  apply (restart_keeps_key_and_rows Toy.primitives (Toy.env 1) (Toy.env 7) Toy.fresh
           Toy.started).
  vm_compute. reflexivity.
Defined.

(** ** The key file *)

Lemma b2a_base64_length (s : bytes) :
  length (Base64.b2a_base64 s) = (4 * ((length s + 2) / 3))%nat.
Proof.
  induction s as [|a|a b|a b c s IH] using list_ind3; try reflexivity.
  cbn [Base64.b2a_base64 length]. rewrite IH.
  replace (S (S (S (length s))) + 2)%nat with (1 * 3 + (length s + 2))%nat by lia.
  rewrite Nat.div_add_l by lia. lia.
Qed.

(** [load_or_generate_key] touches no file but the key file, and that one
    only when it is missing: then the file receives 44 ASCII bytes, the
    url-safe base64 of the 32 bytes drawn from [os.urandom], and the cipher
    returned holds the first 16 of these as signing key and the last 16 as
    encryption key. *)
Theorem load_or_generate_key_writes_only_a_missing_key_file (path : string)
    (env : Env) (fs : gmap string bytes) :
  (forall p, p <> path ->
     snd (load_or_generate_key path env fs) !! p = fs !! p)
  /\ (forall key, fs !! path = Some key ->
        snd (load_or_generate_key path env fs) = fs)
  /\ (fs !! path = None ->
      exists key,
        snd (load_or_generate_key path env fs) !! path = Some key
        /\ length key = 44%nat
        /\ Forall (fun b => Z_of_byte b < 0x80) key
        /\ Base64.urlsafe_b64decode key = Ok (os_urandom env 32)
        /\ fst (load_or_generate_key path env fs)
           = Ok {| Fernet.signing_key := take 16 (os_urandom env 32);
                   Fernet.encryption_key := drop 16 (os_urandom env 32) |}).
Proof.
  unfold load_or_generate_key.
  destruct (fs !! path) as [key|] eqn:Hk; cbn [fst snd].
  - split; [reflexivity|]. split; [reflexivity|discriminate].
  - split; [intros p Hp; now apply lookup_insert_ne|].
    split; [discriminate|]. intros _.
    exists (Fernet.generate_key env).
    split; [apply lookup_insert_eq|].
    split.
    { unfold Fernet.generate_key, Base64.urlsafe_b64encode.
      now rewrite length_map, b2a_base64_length, os_urandom_length. }
    split; [apply Base64Facts.urlsafe_b64encode_ascii|].
    split; [apply Base64Facts.urlsafe_b64decode_b64encode|].
    apply FernetFacts.init_generate_key.
Qed.

(** ** Whitespace around the entries, and the form after a save *)

Lemma lstrip_fixed (s : Py.str) :
  (forall c r, s = c :: r -> Py.isspace c = false) -> Py.lstrip s = s.
Proof.
  destruct s as [|c r]; [reflexivity|]. intros H. cbn [Py.lstrip].
  now rewrite (H c r eq_refl).
Qed.

(** Stripping twice is stripping once. *)
Lemma strip_strip (s : Py.str) : Py.strip (Py.strip s) = Py.strip s.
Proof.
  destruct (StripFacts.strip_split s) as (_ & _ & _ & _ & _ & Hhead & Hlast).
  set (t := Py.strip s) in *. unfold Py.strip at 1, Py.rstrip.
  rewrite (lstrip_fixed t Hhead).
  rewrite lstrip_fixed; [apply rev_involutive|].
  intros c r Hrev. apply (Hlast c (rev r)).
  rewrite <- (rev_involutive t), Hrev. reflexivity.
Qed.

(** Whitespace around the species name, the genus or the habitat changes
    nothing: with the three entries stripped beforehand [save_record] shows
    the same message box or raises the same exception, and leaves the same
    table. *)
Theorem save_record_ignores_surrounding_whitespace (P : Primitives) (env : Env)
    (self : App) :
  let stripped :=
    set_form self (Py.strip (species_entry self), Py.strip (genus_entry self),
                   Py.strip (habitat_entry self), status_combobox self) in
  snd (save_record P env stripped) = snd (save_record P env self)
  /\ conn (fst (save_record P env stripped)) = conn (fst (save_record P env self)).
Proof.
  cbv zeta. rewrite !save_record_unfold. unfold complete, set_form.
  cbn [species_entry genus_entry habitat_entry status_combobox cipher conn].
  rewrite !strip_strip.
  destruct (Py.truthy (Py.strip (species_entry self))
            && Py.truthy (Py.strip (genus_entry self))
            && Py.truthy (Py.strip (habitat_entry self))
            && Py.truthy (status_combobox self)); [|split; reflexivity].
  destruct (encrypt_species P (cipher self) env _); [|split; reflexivity].
  destruct (Sqlite.insert _ _ _ _ _); split; reflexivity.
Qed.

(** After a save that succeeded the form is empty, so that a second press
    of the button saves nothing: it shows the validation error and leaves
    the table with the one new row. *)
Theorem second_save_after_success_is_rejected (P : Primitives) (env env' : Env)
    (self : App) :
  snd (save_record P env self) = Ok saved_successfully ->
  species_entry (fst (save_record P env self)) = []
  /\ genus_entry (fst (save_record P env self)) = []
  /\ habitat_entry (fst (save_record P env self)) = []
  /\ status_combobox (fst (save_record P env self)) = Py.lit "Least Concern"
  /\ save_record P env' (fst (save_record P env self))
     = (fst (save_record P env self), Ok all_fields_required).
Proof.
  rewrite save_record_unfold.
  destruct (complete self); [|discriminate].
  destruct (encrypt_species P (cipher self) env _); [|discriminate].
  destruct (Sqlite.insert _ _ _ _ _); [|discriminate].
  intros _. cbn [fst species_entry genus_entry habitat_entry status_combobox].
  repeat (split; [reflexivity|]).
  rewrite save_record_unfold. reflexivity.
Qed.

Lemma second_save_after_success_is_rejected_witness :
  species_entry (fst (save_record Toy.primitives (Toy.env 2)
     (Toy.fill Toy.started "Bufo bufo" "Bufo" "Wood" "Extinct"))) = []
  /\ genus_entry (fst (save_record Toy.primitives (Toy.env 2)
     (Toy.fill Toy.started "Bufo bufo" "Bufo" "Wood" "Extinct"))) = []
  /\ habitat_entry (fst (save_record Toy.primitives (Toy.env 2)
     (Toy.fill Toy.started "Bufo bufo" "Bufo" "Wood" "Extinct"))) = []
  /\ status_combobox (fst (save_record Toy.primitives (Toy.env 2)
     (Toy.fill Toy.started "Bufo bufo" "Bufo" "Wood" "Extinct")))
     = Py.lit "Least Concern"
  /\ save_record Toy.primitives (Toy.env 3)
       (fst (save_record Toy.primitives (Toy.env 2)
          (Toy.fill Toy.started "Bufo bufo" "Bufo" "Wood" "Extinct")))
     = (fst (save_record Toy.primitives (Toy.env 2)
          (Toy.fill Toy.started "Bufo bufo" "Bufo" "Wood" "Extinct")),
        Ok all_fields_required).
Proof.
  apply (second_save_after_success_is_rejected Toy.primitives (Toy.env 2) (Toy.env 3)
           (Toy.fill Toy.started "Bufo bufo" "Bufo" "Wood" "Extinct")).
  vm_compute. reflexivity.
Defined.
